(** * Inventory agent service: forecasting and stock optimisation

    A shallow embedding of [inventoryagentservice/inventory_agent_service.py]
    and the properties its specification states about it.

    Conventions of the embedding.
    - A Python [float] is an exact rational ([Q]): arithmetic is the ideal
      arithmetic of which binary64 is the rounded version.  Comparisons of
      results are therefore stated with [==] on [Q]; integers are [Z].
      The demand a forecast carries is a [numpy.float64], whose division
      by zero gives an infinity or nan and no exception: the quotient of
      the confidence score is a [np.float64].
    - A Python value that is only passed around (a product id, a stock
      level, the number of forecast days read from a request) is a [json]
      value: the handlers forward whatever the request body held.
    - The [random] module is a tape of draws in the unit interval with a
      cursor; the language model is an oracle that answers a list of
      messages with a text or with an exception.  Both live outside the
      program, so every function that uses them threads a [World].
    - Exceptions are values of [exn]; a computation returns [Ok v] or
      [Raise e] together with the world it leaves behind. *)

From Stdlib Require Import ZArith QArith Qround Qabs Qfield Lqa Lia String List Bool.
From stdpp Require Import gmap strings.
Import ListNotations.

#[local] Set Warnings "-register-all".
#[local] Open Scope Z_scope.
#[local] Open Scope Q_scope.
#[local] Open Scope string_scope.

(** ** Numbers *)

Module Py.

(** [x < y] on floats, as a test. *)
Definition ltb (x y : Q) : bool := negb (Qle_bool y x).

(** [int(x)]: truncation toward zero. *)
Definition int (x : Q) : Z := Z.quot (Qnum x) (Zpos (Qden x)).

(** [max(a, b)]: the first argument unless the second is strictly larger. *)
Definition max (a b : Q) : Q := if ltb a b then b else a.

(** [min(a, b)]: the first argument unless the second is strictly smaller. *)
Definition min (a b : Q) : Q := if ltb b a then b else a.

(** [sum] of a list of floats, from the left, starting at 0. *)
Definition sum (l : list Q) : Q := fold_left Qplus l 0.

End Py.

(** What the specification calls rounding to the nearest integer
    (Python's [round]: ties go to the even neighbour).  The source never
    calls it; it is here to be compared with [Py.int]. *)
Definition round_nearest (x : Q) : Z :=
  let f := Qfloor x in
  let d := x - inject_Z f in
  if Py.ltb d (1 # 2) then f
  else if Py.ltb (1 # 2) d then (f + 1)%Z
  else if Z.even f then f else (f + 1)%Z.

(** ** Values, exceptions, worlds *)

Inductive json : Type :=
  | JNull
  | JBool (b : bool)
  | JInt (n : Z)
  | JFloat (x : Q)
  | JStr (s : string)
  | JList (l : list json)
  | JObj (m : gmap string json).

(** Python truthiness of a decoded JSON value ([if not v]). *)
Definition truthy (v : json) : bool :=
  match v with
  | JNull => false
  | JBool b => b
  | JInt n => negb (n =? 0)%Z
  | JFloat x => negb (Qeq_bool x 0)
  | JStr s => negb (String.eqb s "")
  | JList l => match l with [] => false | _ => true end
  | JObj m => negb (bool_decide (m = ∅))
  end.

Inductive exn : Type :=
  | ZeroDivisionError
  | AttributeError (what : string)
  | TypeError (what : string)
  | LLMError (what : string).

(** [str(e)] *)
Definition str_of_exn (e : exn) : string :=
  match e with
  | ZeroDivisionError => "float division by zero"
  | AttributeError s => s
  | TypeError s => s
  | LLMError s => s
  end.

Inductive result (A : Type) : Type :=
  | Ok (a : A)
  | Raise (e : exn).
Arguments Ok {A} a.
Arguments Raise {A} e.

(** One piece of an f-string: literal text, or a value with its format
    specification. *)
Inductive fragment : Type :=
  | Lit (s : string)
  | Fmt (v : json) (spec : string).

Inductive message : Type :=
  | SystemMessage (content : list fragment)
  | HumanMessage (content : list fragment).

(** The language model: the [n]-th call of a run, on these messages,
    answers with the content of its reply or fails. *)
Definition LLM : Type := nat -> list message -> result string.

Record World : Type := mkWorld {
  rng_tape : nat -> Q;   (* the draws of [random.random()], in order *)
  rng_pos : nat;         (* how many have been consumed *)
  llm_calls : nat        (* how many model calls have been made *)
}.

Definition M (A : Type) : Type := World -> result A * World.

Definition ret {A} (a : A) : M A := fun w => (Ok a, w).

Definition raise {A} (e : exn) : M A := fun w => (Raise e, w).

Definition bind {A B} (m : M A) (k : A -> M B) : M B :=
  fun w =>
    match m w with
    | (Ok a, w') => k a w'
    | (Raise e, w') => (Raise e, w')
    end.

Notation "'let*' x := m 'in' k" := (bind m (fun x => k))
  (at level 10, x name, m at level 100, k at level 200).

(** [for x in l: out.append(body(x))] *)
Fixpoint for_each {A B} (l : list A) (body : A -> M B) : M (list B) :=
  match l with
  | [] => ret []
  | x :: l' =>
      let* y := body x in
      let* ys := for_each l' body in
      ret (y :: ys)
  end.

(** [llm.invoke(messages)] *)
Definition invoke (llm : LLM) (messages : list message) : M string :=
  fun w =>
    (llm (llm_calls w) messages,
     mkWorld (rng_tape w) (rng_pos w) (S (llm_calls w))).

(** ** The [random] module *)

Module random.

(** [random.random()]: the next draw of the tape. *)
Definition random : M Q :=
  fun w => (Ok (rng_tape w (rng_pos w)),
            mkWorld (rng_tape w) (S (rng_pos w)) (llm_calls w)).

(** [random.uniform(a, b)] is [a + (b - a) * random()]. *)
Definition uniform (a b : Q) : M Q :=
  let* u := random in ret (a + (b - a) * u).

(** [random.randint(a, b)]: an integer of [a..b], chosen by one draw. *)
Definition randint (a b : Z) : M Z :=
  let* u := random in ret (a + Qfloor (u * inject_Z (b - a + 1)))%Z.

(** [random.choice(seq)]: an element of [seq], chosen by one draw. *)
Definition choice {A} (seq : list A) (dflt : A) : M A :=
  let* u := random in
  ret (nth (Z.to_nat (Qfloor (u * inject_Z (Z.of_nat (length seq))))) seq dflt).

End random.

(** A tape of draws is valid when every draw lies in [[0, 1)]. *)
Definition valid_tape (t : nat -> Q) : Prop := forall n, 0 <= t n /\ t n < 1.

(** ** Data model *)

Record DemandForecast : Type := mkDemandForecast {
  product_id : json;
  forecast_period_days : json;
  predicted_demand : Q;
  confidence_interval : Q * Q;
  trend_direction : string;
  seasonality_factor : Q;
  external_signals : list (string * Q)   (* a dict, in insertion order *)
}.

Record InventoryRecommendation : Type := mkInventoryRecommendation {
  rec_product_id : json;
  current_stock : json;
  recommended_stock : Z;
  reorder_point : Z;
  demand_forecast : Q;
  confidence_score : Q;
  reasoning : string;
  external_factors : list string
}.

(** [dict.get(key, dflt)] on a dict of floats kept in insertion order. *)
Fixpoint dict_get (d : list (string * Q)) (key : string) (dflt : Q) : Q :=
  match d with
  | [] => dflt
  | (k, v) :: d' => if String.eqb k key then v else dict_get d' key dflt
  end.

Definition json_of_dict (d : list (string * Q)) : json :=
  JObj (list_to_map (map (fun kv => (fst kv, JFloat (snd kv))) d)).

(** ** ExternalDataCollector *)

Module ExternalDataCollector.

Definition impact_map : gmap string Q :=
  <["sunny" := 0.1]> (<["rainy" := 0.3]> (<["cloudy" := 0.0]>
  (<["snowy" := 0.4]> (<["stormy" := 0.2]> ∅)))).

Definition _calculate_weather_impact (condition : string) (temperature : Z) : Q :=
  let base_impact := default 0.0 (impact_map !! condition) in
  (* Extreme temperatures increase indoor shopping *)
  let base_impact :=
    if (temperature <? 0)%Z || (30 <? temperature)%Z
    then base_impact + 0.2 else base_impact in
  Py.min base_impact 1.0.

Record WeatherData : Type := mkWeatherData {
  temperature : Z;
  condition : string;
  precipitation_chance : Q;
  impact_score : Q
}.

Definition weather_conditions : list string :=
  ["sunny"; "rainy"; "cloudy"; "snowy"; "stormy"].

Definition get_weather_data : M WeatherData :=
  let* temperature := random.randint (-10) 35 in
  let* condition := random.choice weather_conditions "" in
  let* precipitation_chance := random.random in
  ret (mkWeatherData temperature condition precipitation_chance
         (_calculate_weather_impact condition temperature)).

Definition get_social_trends : M (list (string * Q)) :=
  let* r1 := random.random in
  let* r2 := random.random in
  let* r3 := random.random in
  let* r4 := random.random in
  let* r5 := random.random in
  ret [("sustainable_fashion", r1 * 0.5);
       ("outdoor_activities", r2 * 0.3);
       ("work_from_home", r3 * 0.4);
       ("tech_accessories", r4 * 0.6);
       ("health_fitness", r5 * 0.3)].

Definition get_economic_indicators : M (list (string * Q)) :=
  let* r1 := random.uniform 0.3 0.9 in
  let* r2 := random.uniform 0.03 0.10 in
  let* r3 := random.uniform 0.01 0.05 in
  let* r4 := random.uniform 0.8 1.2 in
  ret [("consumer_confidence", r1);
       ("unemployment_rate", r2);
       ("inflation_rate", r3);
       ("retail_spending_index", r4)].

Definition json_of_weather (wd : WeatherData) : json :=
  JObj (<["temperature" := JInt (temperature wd)]>
       (<["condition" := JStr (condition wd)]>
       (<["precipitation_chance" := JFloat (precipitation_chance wd)]>
       (<["impact_score" := JFloat (impact_score wd)]> ∅)))).

End ExternalDataCollector.

(** ** numpy and scipy, as far as the service uses them *)

Module np.

(** [np.mean]: the sum divided by the number of elements.  (Of an empty
    list numpy makes nan; the service only averages lists that are not
    empty.) *)
Definition mean (l : list Q) : Q := Py.sum l / inject_Z (Z.of_nat (length l)).

(** [np.sqrt] on a non-negative argument: the root truncated to 52 binary
    digits after the point; a rational, as a float is. *)
Definition sqrt (x : Q) : Q :=
  if Qle_bool x 0 then 0
  else inject_Z (Z.sqrt (Qfloor (x * inject_Z (4 ^ 52)))) / inject_Z (2 ^ 52).

(** [np.std]: the population standard deviation. *)
Definition std (l : list Q) : Q :=
  let m := mean l in
  sqrt (mean (map (fun x => (x - m) * (x - m)) l)).

(** [np.arange(n)] *)
Definition arange (n : nat) : list Q := map (fun i => inject_Z (Z.of_nat i)) (seq 0 n).

(** A [numpy.float64] that may be infinite or nan. *)
Inductive float64 : Type :=
  | Finite (x : Q)
  | PosInf
  | NegInf
  | NaN.

(** [a / b] on [numpy.float64]: a zero divisor gives an infinity of the
    sign of [a], or nan when [a] is zero too (and a warning, no
    exception). *)
Definition true_divide (a b : Q) : float64 :=
  if Qeq_bool b 0 then
    if Py.ltb 0 a then PosInf else if Py.ltb a 0 then NegInf else NaN
  else Finite (a / b).

(** [c - v] *)
Definition rsub (c : Q) (v : float64) : float64 :=
  match v with
  | Finite x => Finite (c - x)
  | PosInf => NegInf
  | NegInf => PosInf
  | NaN => NaN
  end.

(** [v * c] *)
Definition mul (v : float64) (c : Q) : float64 :=
  match v with
  | Finite x => Finite (x * c)
  | PosInf => if Py.ltb 0 c then PosInf else if Py.ltb c 0 then NegInf else NaN
  | NegInf => if Py.ltb 0 c then NegInf else if Py.ltb c 0 then PosInf else NaN
  | NaN => NaN
  end.

(** [v + c] *)
Definition add (v : float64) (c : Q) : float64 :=
  match v with
  | Finite x => Finite (x + c)
  | _ => v
  end.

(** [v > a] and [v < a]: false of nan. *)
Definition gt (v : float64) (a : Q) : bool :=
  match v with
  | Finite x => Py.ltb a x
  | PosInf => true
  | NegInf | NaN => false
  end.

Definition lt (v : float64) (a : Q) : bool :=
  match v with
  | Finite x => Py.ltb x a
  | NegInf => true
  | PosInf | NaN => false
  end.

(** Python's [max(a, v)] and [min(a, v)]: the first argument unless the
    second is strictly larger, or strictly smaller. *)
Definition max_with (a : Q) (v : float64) : float64 :=
  if gt v a then v else Finite a.

Definition min_with (a : Q) (v : float64) : float64 :=
  if lt v a then v else Finite a.

(** [min(hi, max(lo, v))], which is finite whatever [v] is: [max] keeps
    [lo] against nan and minus infinity, and [min] keeps [hi] against
    plus infinity ([min_of_max_spec]). *)
Definition min_of_max (hi lo : Q) (v : float64) : Q :=
  match v with
  | Finite x => Py.min hi (Py.max lo x)
  | PosInf => hi
  | NegInf | NaN => Py.min hi lo
  end.

End np.

Module stats.

(** The slope of [stats.linregress(x, y)]: the covariance of [x] and [y]
    over the variance of [x] (both with divisor [n]).  The service fits
    30 points at the abscissas 0..29, whose variance is not 0. *)
Definition linregress_slope (x y : list Q) : Q :=
  let xmean := np.mean x in
  let ymean := np.mean y in
  let ssxm := np.mean (map (fun a => (a - xmean) * (a - xmean)) x) in
  let ssxym :=
    np.mean (map (fun ab => (fst ab - xmean) * (snd ab - ymean)) (combine x y)) in
  ssxym / ssxm.

End stats.

(** ** DemandForecastingEngine *)

Module DemandForecastingEngine.

Import ExternalDataCollector.

Record SalesPoint : Type := mkSalesPoint {
  date : Z;               (* days before [datetime.now()] *)
  sp_product_id : json;
  sales : Z;
  day_of_week : Z
}.

(** [range(n)] *)
Definition range (n : Z) : list Z := map Z.of_nat (seq 0 (Z.to_nat n)).

(** [d in [5, 6]] *)
Definition is_weekend (d : Z) : bool := (d =? 5)%Z || (d =? 6)%Z.

Definition generate_mock_sales_data (product_id : json) (days : Z)
  : M (list SalesPoint) :=
  let* base_demand := random.randint 10 100 in
  for_each (range days) (fun i =>
    (* Add seasonality (weekly pattern) *)
    let day_of_week := (i mod 7)%Z in
    let weekly_multiplier := if is_weekend day_of_week then 1.2 else 0.9 in
    (* Add trend; [days] is positive inside the loop *)
    let* u := random.uniform (-0.3) 0.3 in
    let trend := 1 + (inject_Z i / inject_Z days) * u in
    (* Add noise *)
    let* noise := random.uniform 0.7 1.3 in
    let demand :=
      Py.int (inject_Z base_demand * weekly_multiplier * trend * noise) in
    ret (mkSalesPoint (days - i) product_id (Z.max 0 demand) day_of_week)).

Definition trend_of_slope (slope : Q) : string :=
  if Py.ltb 0 slope then "increasing"
  else if Py.ltb slope 0 then "decreasing"
  else "stable".

Definition forecast_prompt (product_id : json) (sales_values : list Z)
    (trend_direction : string) (slope seasonality_factor : Q)
    (weather_data : WeatherData) (social_trends economic_data : list (string * Q))
    (forecast_days : json) : list fragment :=
  [ Lit "As an expert demand forecasting AI, analyze the following data to predict demand for product ";
    Fmt product_id "";
    Lit ": Historical Sales (last 30 days): ";
    Fmt (JList (map JInt sales_values)) "";
    Lit " Recent Trend: "; Fmt (JStr trend_direction) "";
    Lit " (slope: "; Fmt (JFloat slope) ".3f";
    Lit ") Seasonality Factor: "; Fmt (JFloat seasonality_factor) ".2f";
    Lit " External Factors: - Weather: "; Fmt (json_of_weather weather_data) "";
    Lit " - Social Trends: "; Fmt (json_of_dict social_trends) "";
    Lit " - Economic Indicators: "; Fmt (json_of_dict economic_data) "";
    Lit " Provide a demand forecast for the next "; Fmt forecast_days "";
    Lit " days. Consider: 1. Historical patterns and trends 2. Seasonal effects 3. External factor impacts 4. Confidence level based on data quality Return your analysis as structured reasoning and a numerical forecast." ].

Definition forecast_demand (llm : LLM) (product_id forecast_days : json)
  : M DemandForecast :=
  (* Get historical sales data *)
  let* historical_data := generate_mock_sales_data product_id 30 in
  (* Get external signals *)
  let* weather_data := get_weather_data in
  let* social_trends := get_social_trends in
  let* economic_data := get_economic_indicators in
  (* Analyze historical patterns *)
  let sales_values := map sales historical_data in
  let recent_sales := skipn (length sales_values - 7) sales_values in
  (* Calculate trend *)
  let x := np.arange (length sales_values) in
  let slope := stats.linregress_slope x (map inject_Z sales_values) in
  let trend_direction := trend_of_slope slope in
  (* Calculate seasonality (day of week effect) *)
  let weekend_avg :=
    np.mean (map (fun item => inject_Z (sales item))
               (List.filter (fun item => is_weekend (day_of_week item)) historical_data)) in
  let weekday_avg :=
    np.mean (map (fun item => inject_Z (sales item))
               (List.filter (fun item => negb (is_weekend (day_of_week item))) historical_data)) in
  let seasonality_factor :=
    if Py.ltb 0 weekday_avg then weekend_avg / weekday_avg else 1.0 in
  (* Use AI to synthesize all signals *)
  let ai_prompt :=
    forecast_prompt product_id sales_values trend_direction slope
      seasonality_factor weather_data social_trends economic_data forecast_days in
  let messages :=
    [ SystemMessage [Lit "You are an expert AI demand forecasting agent with access to multiple data sources."];
      HumanMessage ai_prompt ] in
  let* ai_response := invoke llm messages in
  (* Extract insights from AI response *)
  let base_forecast := np.mean (map inject_Z recent_sales) in
  (* Apply external factor adjustments *)
  let weather_impact := impact_score weather_data * 0.2 in
  let social_impact :=
    Py.sum (map snd social_trends) / inject_Z (Z.of_nat (length social_trends)) * 0.1 in
  let economic_impact := dict_get economic_data "consumer_confidence" 0.5 * 0.15 in
  let adjusted_forecast :=
    base_forecast * (1 + weather_impact + social_impact + economic_impact) in
  (* Calculate confidence interval *)
  let std_dev := np.std (map inject_Z sales_values) in
  let confidence_interval :=
    (Py.max 0 (adjusted_forecast - 1.96 * std_dev),
     adjusted_forecast + 1.96 * std_dev) in
  ret (mkDemandForecast product_id forecast_days adjusted_forecast
         confidence_interval trend_direction seasonality_factor
         [ ("weather_impact", weather_impact);
           ("social_impact", social_impact);
           ("economic_impact", economic_impact) ]).

End DemandForecastingEngine.

(** ** InventoryOptimizer *)

Module InventoryOptimizer.

Definition reasoning_prompt (product_id current_stock : json)
    (df : DemandForecast) (recommended_stock reorder_point : Z) : list fragment :=
  [ Lit "As an inventory management AI agent, provide clear reasoning for inventory recommendations: Product: ";
    Fmt product_id "";
    Lit " Current Stock: "; Fmt current_stock "";
    Lit " Predicted Demand: "; Fmt (JFloat (predicted_demand df)) ".1f";
    Lit " Confidence Interval: ";
    Fmt (JList [JFloat (fst (confidence_interval df));
                JFloat (snd (confidence_interval df))]) "";
    Lit " Trend: "; Fmt (JStr (trend_direction df)) "";
    Lit " External Factors: "; Fmt (json_of_dict (external_signals df)) "";
    Lit " Recommended Stock Level: "; Fmt (JInt recommended_stock) "";
    Lit " Reorder Point: "; Fmt (JInt reorder_point) "";
    Lit " Explain the reasoning behind these recommendations, considering: 1. Demand forecast accuracy 2. Risk of stockouts vs holding costs 3. External factor impacts 4. Trend analysis Provide a concise, business-friendly explanation." ].

(** The loop that names the external factors of weight above 0.1. *)
Fixpoint key_external_factors (items : list (string * Q)) : list string :=
  match items with
  | [] => []
  | (factor, impact) :: rest =>
      if Py.ltb 0.1 (Qabs impact) then
        let direction := if Py.ltb 0 impact then "increasing" else "decreasing" in
        (factor ++ " (" ++ direction ++ " demand)") :: key_external_factors rest
      else key_external_factors rest
  end.

Definition generate_recommendation (llm : LLM) (product_id current_stock : json)
    (demand_forecast : DemandForecast) : M InventoryRecommendation :=
  (* Calculate basic metrics *)
  let safety_stock := Z.max 5 (Py.int (predicted_demand demand_forecast * 0.3)) in
  let lead_time_demand := predicted_demand demand_forecast * 0.5 in
  let reorder_point := Py.int (lead_time_demand + inject_Z safety_stock) in
  (* Calculate recommended stock level *)
  let forecast_uncertainty :=
    Qabs (snd (confidence_interval demand_forecast)
          - fst (confidence_interval demand_forecast)) in
  let buffer_stock := Py.int (forecast_uncertainty * 0.2) in
  let recommended_stock :=
    Py.int (predicted_demand demand_forecast * 1.5 + inject_Z buffer_stock) in
  (* Use AI to provide reasoning *)
  let messages :=
    [ SystemMessage [Lit "You are an expert inventory management AI that provides clear, actionable insights."];
      HumanMessage (reasoning_prompt product_id current_stock demand_forecast
                      recommended_stock reorder_point) ] in
  let* ai_reasoning := invoke llm messages in
  (* Calculate confidence score *)
  let forecast_accuracy :=
    np.rsub 1.0
      (np.true_divide forecast_uncertainty (predicted_demand demand_forecast)) in
  let confidence_score :=
    np.min_of_max 0.95 0.1 (np.add (np.mul forecast_accuracy 0.8) 0.2) in
  (* Identify key external factors *)
  let external_factors := key_external_factors (external_signals demand_forecast) in
  ret (mkInventoryRecommendation product_id current_stock recommended_stock
         reorder_point (predicted_demand demand_forecast) confidence_score
         ai_reasoning external_factors).

End InventoryOptimizer.

(** ** InventoryAgent *)

Module InventoryAgent.

Definition process_product (llm : LLM) (product_id current_stock : json)
  : M InventoryRecommendation :=
  (* Generate demand forecast; [forecast_days] takes its default *)
  let* demand_forecast :=
    DemandForecastingEngine.forecast_demand llm product_id (JInt 7) in
  (* Generate inventory recommendation *)
  let* recommendation :=
    InventoryOptimizer.generate_recommendation llm product_id current_stock
      demand_forecast in
  ret recommendation.

End InventoryAgent.

(** ** Flask application *)

Module App.

Record Response : Type := mkResponse {
  status : Z;
  body : json
}.

(** [jsonify(v)], and [jsonify(v), code] *)
Definition jsonify (v : json) : Response := mkResponse 200 v.

Definition type_name (v : json) : string :=
  match v with
  | JNull => "NoneType"
  | JBool _ => "bool"
  | JInt _ => "int"
  | JFloat _ => "float"
  | JStr _ => "str"
  | JList _ => "list"
  | JObj _ => "dict"
  end.

(** [v.get(key, dflt)]: only a dict has the method. *)
Definition get (v : json) (key : string) (dflt : json) : M json :=
  match v with
  | JObj m => ret (default dflt (m !! key))
  | _ => raise (AttributeError ("'" ++ type_name v ++ "' object has no attribute 'get'"))
  end.

(** The elements [for x in v] runs over. *)
Definition iter (v : json) : M (list json) :=
  match v with
  | JList l => ret l
  | JStr s => ret (map (fun c => JStr (String c "")) (list_ascii_of_string s))
  | JObj m => ret (map (fun kv => JStr (fst kv)) (map_to_list m))
  | _ => raise (TypeError ("'" ++ type_name v ++ "' object is not iterable"))
  end.

(** [try: m except Exception as e: handler(e)] *)
Definition try_except {A} (m : M A) (handler : exn -> M A) : M A :=
  fun w =>
    match m w with
    | (Ok a, w') => (Ok a, w')
    | (Raise e, w') => handler e w'
    end.

Definition error_body (msg : string) : json := JObj {[ "error" := JStr msg ]}.

(** [asdict(forecast)] *)
Definition asdict_forecast (f : DemandForecast) : json :=
  JObj (<["product_id" := product_id f]>
       (<["forecast_period_days" := forecast_period_days f]>
       (<["predicted_demand" := JFloat (predicted_demand f)]>
       (<["confidence_interval" :=
            JList [JFloat (fst (confidence_interval f));
                   JFloat (snd (confidence_interval f))]]>
       (<["trend_direction" := JStr (trend_direction f)]>
       (<["seasonality_factor" := JFloat (seasonality_factor f)]>
       (<["external_signals" := json_of_dict (external_signals f)]> ∅))))))).

(** [asdict(recommendation)] *)
Definition asdict_recommendation (r : InventoryRecommendation) : json :=
  JObj (<["product_id" := rec_product_id r]>
       (<["current_stock" := current_stock r]>
       (<["recommended_stock" := JInt (recommended_stock r)]>
       (<["reorder_point" := JInt (reorder_point r)]>
       (<["demand_forecast" := JFloat (demand_forecast r)]>
       (<["confidence_score" := JFloat (confidence_score r)]>
       (<["reasoning" := JStr (reasoning r)]>
       (<["external_factors" := JList (map JStr (external_factors r))]> ∅)))))))).

(** [POST /forecast]; [data] is [request.get_json()]. *)
Definition generate_forecast (llm : LLM) (data : json) : M Response :=
  let* product_id := get data "product_id" JNull in
  let* forecast_days := get data "forecast_days" (JInt 7) in
  if negb (truthy product_id) then
    ret (mkResponse 400 (error_body "product_id is required"))
  else
    try_except
      (let* forecast :=
         DemandForecastingEngine.forecast_demand llm product_id forecast_days in
       ret (jsonify (asdict_forecast forecast)))
      (fun e => ret (mkResponse 500 (error_body (str_of_exn e)))).

(** The body of [for product_data in products: ...], with the list of
    recommendations built so far. *)
Fixpoint recommend_each (llm : LLM) (products recommendations : list json)
  : M (list json) :=
  match products with
  | [] => ret recommendations
  | product_data :: rest =>
      let* product_id := get product_data "product_id" JNull in
      let* current_stock := get product_data "current_stock" (JInt 0) in
      if truthy product_id then
        let* recommendation :=
          InventoryAgent.process_product llm product_id current_stock in
        recommend_each llm rest
          (recommendations ++ [asdict_recommendation recommendation])
      else recommend_each llm rest recommendations
  end.

(** [POST /inventory/recommendations] *)
Definition get_inventory_recommendations (llm : LLM) (data : json) : M Response :=
  let* products := get data "products" (JList []) in
  if negb (truthy products) then
    ret (mkResponse 400 (error_body "products list is required"))
  else
    try_except
      (let* items := iter products in
       let* recommendations := recommend_each llm items [] in
       ret (jsonify (JObj {[ "recommendations" := JList recommendations ]})))
      (fun e => ret (mkResponse 500 (error_body (str_of_exn e)))).

End App.

(** * Sample inputs *)

Module Samples.

(** A model that answers every call with the same text. *)
Definition llm_const (reply : string) : LLM := fun _ _ => Ok reply.

(** Draws under which every synthesized day sells 10 units: the base
    demand is 10, no trend, and the noise is 1.2 on weekdays and 0.9 at
    weekends. *)
Definition flat_tape (n : nat) : Q :=
  if (n =? 0)%nat then 0
  else if (60 <? n)%nat then 1 # 2
  else if Nat.odd n then 1 # 2
  else if DemandForecastingEngine.is_weekend (Z.of_nat ((n - 1) / 2) mod 7)
       then 1 # 3 else 5 # 6.

Definition w0 (tape : nat -> Q) : World := mkWorld tape 0 0.

Definition forecast_of (pd lo hi : Q) : DemandForecast :=
  mkDemandForecast (JStr "P1") (JInt 7) pd (lo, hi) "stable" 1 [].

End Samples.

(** What the specification lists as the weather table; conditions outside
    it count for nothing. *)
Definition weather_table (condition : string) : Q :=
  if String.eqb condition "sunny" then 0.1
  else if String.eqb condition "rainy" then 0.3
  else if String.eqb condition "cloudy" then 0.0
  else if String.eqb condition "snowy" then 0.4
  else if String.eqb condition "stormy" then 0.2
  else 0.0.

(** The stock levels as the specification words them, with rounding to
    the nearest integer. *)
Definition spec_safety_stock (df : DemandForecast) : Z :=
  Z.max 5 (round_nearest (predicted_demand df * 0.3)).

Definition spec_reorder_point (df : DemandForecast) : Z :=
  round_nearest (predicted_demand df * 0.5 + inject_Z (spec_safety_stock df)).

Definition spec_recommended_stock (df : DemandForecast) : Z :=
  let forecast_uncertainty :=
    Qabs (snd (confidence_interval df) - fst (confidence_interval df)) in
  let buffer_stock := round_nearest (forecast_uncertainty * 0.2) in
  round_nearest (predicted_demand df * 1.5 + inject_Z buffer_stock).

(** The model answers its [n]-th call, whatever it is asked. *)
Definition answers (llm : LLM) (n : nat) : Prop :=
  forall messages, exists text, llm n messages = Ok text.

(** The world after [k] more draws. *)
Definition advance (w : World) (k : nat) : World :=
  mkWorld (rng_tape w) (k + rng_pos w) (llm_calls w).

(** ** [forecast_demand] in two halves

    The draws [forecast_demand] makes before it asks the model, and what
    it computes from them afterwards; [forecast_demand_run] below proves
    that the function is the one followed by the other. *)

Module Forecast.

Import ExternalDataCollector DemandForecastingEngine.

Record Inputs : Type := mkInputs {
  historical_data : list SalesPoint;
  weather_data : WeatherData;
  social_trends : list (string * Q);
  economic_data : list (string * Q)
}.

Definition gather (product_id : json) : M Inputs :=
  let* historical_data := generate_mock_sales_data product_id 30 in
  let* weather_data := get_weather_data in
  let* social_trends := get_social_trends in
  let* economic_data := get_economic_indicators in
  ret (mkInputs historical_data weather_data social_trends economic_data).

Definition sales_values (i : Inputs) : list Z := map sales (historical_data i).

Definition slope (i : Inputs) : Q :=
  stats.linregress_slope (np.arange (length (sales_values i)))
    (map inject_Z (sales_values i)).

Definition weekend_avg (data : list SalesPoint) : Q :=
  np.mean (map (fun item => inject_Z (sales item))
             (List.filter (fun item => is_weekend (day_of_week item)) data)).

Definition weekday_avg (data : list SalesPoint) : Q :=
  np.mean (map (fun item => inject_Z (sales item))
             (List.filter (fun item => negb (is_weekend (day_of_week item))) data)).

Definition seasonality (i : Inputs) : Q :=
  if Py.ltb 0 (weekday_avg (historical_data i))
  then weekend_avg (historical_data i) / weekday_avg (historical_data i)
  else 1.0.

Definition messages (product_id forecast_days : json) (i : Inputs)
  : list message :=
  [ SystemMessage [Lit "You are an expert AI demand forecasting agent with access to multiple data sources."];
    HumanMessage
      (forecast_prompt product_id (sales_values i) (trend_of_slope (slope i))
         (slope i) (seasonality i) (weather_data i) (social_trends i)
         (economic_data i) forecast_days) ].

Definition base_forecast (i : Inputs) : Q :=
  np.mean (map inject_Z
             (skipn (length (sales_values i) - 7) (sales_values i))).

Definition weather_impact (i : Inputs) : Q := impact_score (weather_data i) * 0.2.

Definition social_impact (i : Inputs) : Q :=
  Py.sum (map snd (social_trends i))
  / inject_Z (Z.of_nat (length (social_trends i))) * 0.1.

Definition economic_impact (i : Inputs) : Q :=
  dict_get (economic_data i) "consumer_confidence" 0.5 * 0.15.

Definition adjusted_forecast (i : Inputs) : Q :=
  base_forecast i * (1 + weather_impact i + social_impact i + economic_impact i).

Definition std_dev (i : Inputs) : Q := np.std (map inject_Z (sales_values i)).

Definition value (product_id forecast_days : json) (i : Inputs) : DemandForecast :=
  mkDemandForecast product_id forecast_days (adjusted_forecast i)
    (Py.max 0 (adjusted_forecast i - 1.96 * std_dev i),
     adjusted_forecast i + 1.96 * std_dev i)
    (trend_of_slope (slope i)) (seasonality i)
    [ ("weather_impact", weather_impact i);
      ("social_impact", social_impact i);
      ("economic_impact", economic_impact i) ].

End Forecast.

(** ** The demo client ([demo.py])

    What [demo_inventory_recommendations] prints under each
    recommendation, and the arrow [demo_demand_forecast] prints beside
    each external signal. *)

Module Demo.

Inductive action : Type :=
  | ActionNeeded                (* Stock below reorder point! *)
  | ConsiderIncrease (by_units : Z)   (* Increase stock by ... units *)
  | StockOk.                    (* Current levels sufficient *)

Definition stock_action (current recommended reorder : Z) : action :=
  if (current <=? reorder)%Z then ActionNeeded
  else if (current <? recommended)%Z then ConsiderIncrease (recommended - current)
  else StockOk.

Definition signal_direction (impact : Q) : string :=
  if Py.ltb 0 impact then "up"
  else if Py.ltb impact 0 then "down"
  else "level".

End Demo.

(** A model that fails every call with the same exception. *)
Definition llm_failing (e : exn) : LLM := fun _ _ => Raise e.

(** A model that answers its first [n] calls and fails from then on. *)
Definition llm_failing_from (n : nat) (reply : string) (e : exn) : LLM :=
  fun k _ => if (k <? n)%nat then Ok reply else Raise e.

(** The entry of a products list has a product id the handler accepts. *)
Definition has_product_id (entry : gmap string json) : bool :=
  truthy (default JNull (entry !! "product_id")).

(** The serialized recommendation was made for this entry: it echoes its
    product id and its stock, 0 when the entry names none. *)
Definition made_for (rec : json) (entry : gmap string json) : Prop :=
  exists r,
    rec = App.asdict_recommendation r
    /\ rec_product_id r = default JNull (entry !! "product_id")
    /\ current_stock r = default (JInt 0) (entry !! "current_stock").

(** * Properties *)

(** ** Comparisons and truncation *)

Lemma ltb_lt (x y : Q) : Py.ltb x y = true <-> x < y.
Proof.
  unfold Py.ltb. rewrite negb_true_iff, <- not_true_iff_false, Qle_bool_iff.
  split; [apply Qnot_le_lt | apply Qlt_not_le].
Qed.

Lemma ltb_ge (x y : Q) : Py.ltb x y = false <-> y <= x.
Proof.
  unfold Py.ltb. rewrite negb_false_iff. apply Qle_bool_iff.
Qed.

Lemma ltb_spec (x y : Q) : reflect (x < y) (Py.ltb x y).
Proof.
  destruct (Py.ltb x y) eqn:E; constructor.
  - now apply ltb_lt.
  - apply ltb_ge in E. now apply Qle_not_lt.
Qed.

Lemma max_cases (a b : Q) :
  (a < b /\ Py.max a b = b) \/ (b <= a /\ Py.max a b = a).
Proof.
  unfold Py.max. destruct (ltb_spec a b) as [H|H]; [left | right]; split; auto.
  now apply Qnot_lt_le.
Qed.

Lemma min_cases (a b : Q) :
  (b < a /\ Py.min a b = b) \/ (a <= b /\ Py.min a b = a).
Proof.
  unfold Py.min. destruct (ltb_spec b a) as [H|H]; [left | right]; split; auto.
  now apply Qnot_lt_le.
Qed.

(** [int] drops the fractional part: the result lies between 0 and the
    argument, less than one unit away from it. *)
Lemma int_toward_zero (x : Q) :
  (0 <= x -> inject_Z (Py.int x) <= x /\ x < inject_Z (Py.int x) + 1) /\
  (x <= 0 -> x <= inject_Z (Py.int x) /\ inject_Z (Py.int x) - 1 < x).
Proof.
  destruct x as [n d]. unfold Py.int, Qle, Qlt. cbn [Qnum Qden].
  pose proof (Z.quot_rem' n (Zpos d)) as E.
  split; intros H; cbn in H; rewrite Z.mul_1_r in H.
  - pose proof (Z.rem_bound_pos n (Zpos d) H ltac:(lia)) as B.
    cbn. split; nia.
  - pose proof (Z.rem_bound_pos_neg n (Zpos d) ltac:(lia) H) as B.
    cbn. split; nia.
Qed.

(** ** Weather impact *)

Section WeatherImpact.

Import ExternalDataCollector.

Lemma impact_map_lookup (condition : string) :
  default 0.0 (impact_map !! condition) = weather_table condition.
Proof.
  unfold impact_map, weather_table.
  repeat (rewrite lookup_insert; case_decide;
          [ subst condition; reflexivity
          | replace (String.eqb condition _) with false
              by (symmetry; apply String.eqb_neq; congruence) ]).
  rewrite lookup_empty. reflexivity.
Qed.

Lemma weather_table_range (condition : string) :
  0 <= weather_table condition /\ weather_table condition <= 0.4.
Proof.
  unfold weather_table.
  repeat match goal with
         | |- context [String.eqb ?a ?b] => destruct (String.eqb a b)
         end; split; lra.
Qed.

(** C5.  For every condition string and every temperature (those of
    [-10..35] among them), [_calculate_weather_impact] is the table value
    of the condition (sunny 0.1, rainy 0.3, cloudy 0.0, snowy 0.4, stormy
    0.2, nothing for any other string) plus 0.2 when the temperature is
    below 0 or above 30, capped at 1.0; the result lies in [[0, 1]]. *)
Theorem weather_impact_table_and_range (condition : string) (temperature : Z) :
  let extreme := (temperature <? 0)%Z || (30 <? temperature)%Z in
  let uncapped := weather_table condition + (if extreme then 0.2 else 0) in
  _calculate_weather_impact condition temperature
    == (if Qle_bool uncapped 1 then uncapped else 1)
  /\ 0 <= _calculate_weather_impact condition temperature
  /\ _calculate_weather_impact condition temperature <= 1.
Proof.
  cbv zeta. unfold _calculate_weather_impact.
  rewrite impact_map_lookup.
  pose proof (weather_table_range condition) as [Hlo Hhi].
  set (t := weather_table condition) in *.
  destruct ((temperature <? 0)%Z || (30 <? temperature)%Z).
  - destruct (min_cases (t + 0.2) 1.0) as [[Hc E]|[Hc E]]; rewrite E.
    + lra.
    + replace (Qle_bool (t + 0.2) 1) with true
        by (symmetry; apply Qle_bool_iff; lra).
      repeat split; lra.
  - destruct (min_cases t 1.0) as [[Hc E]|[Hc E]]; rewrite E.
    + lra.
    + replace (Qle_bool (t + 0) 1) with true
        by (symmetry; apply Qle_bool_iff; lra).
      repeat split; lra.
Qed.

End WeatherImpact.

(** ** Stock optimisation *)

Section Optimizer.

Import InventoryOptimizer.

(** [min_of_max] is Python's [min] of Python's [max]. *)
Lemma min_of_max_spec (hi lo : Q) (v : np.float64) :
  np.Finite (np.min_of_max hi lo v) = np.min_with hi (np.max_with lo v).
Proof.
  destruct v as [x| | |];
    cbv [np.min_of_max np.min_with np.max_with np.lt np.gt Py.min Py.max].
  - destruct (Py.ltb lo x); cbv beta iota; destruct (Py.ltb _ hi); reflexivity.
  - reflexivity.
  - destruct (Py.ltb lo hi); reflexivity.
  - destruct (Py.ltb lo hi); reflexivity.
Qed.

(** The score of lines 293-294 by the predicted demand: the quotient by a
    zero demand is plus infinity or nan, the accuracy minus infinity or
    nan, and the clamp turns both into [min(0.95, 0.1)]. *)
Lemma score_by_cases (width pd : Q) :
  0 <= width ->
  np.min_of_max 0.95 0.1
    (np.add (np.mul (np.rsub 1.0 (np.true_divide width pd)) 0.8) 0.2)
  = if Qeq_bool pd 0 then Py.min 0.95 0.1
    else Py.min 0.95 (Py.max 0.1 ((1.0 - width / pd) * 0.8 + 0.2)).
Proof.
  intros Hw. unfold np.true_divide.
  destruct (Qeq_bool pd 0); [|reflexivity].
  destruct (ltb_spec 0 width); [reflexivity|].
  destruct (ltb_spec width 0); [lra | reflexivity].
Qed.

(** What [generate_recommendation] does, step by step: the model is
    asked first, then the accuracy is computed. *)
Lemma generate_recommendation_run (llm : LLM) (pid stock : json)
    (df : DemandForecast) (w : World) :
  let pd := predicted_demand df in
  let safety_stock := Z.max 5 (Py.int (pd * 0.3)) in
  let reorder := Py.int (pd * 0.5 + inject_Z safety_stock) in
  let uncertainty :=
    Qabs (snd (confidence_interval df) - fst (confidence_interval df)) in
  let recommended := Py.int (pd * 1.5 + inject_Z (Py.int (uncertainty * 0.2))) in
  let w' := mkWorld (rng_tape w) (rng_pos w) (S (llm_calls w)) in
  generate_recommendation llm pid stock df w =
    match llm (llm_calls w)
            [ SystemMessage [Lit "You are an expert inventory management AI that provides clear, actionable insights."];
              HumanMessage (reasoning_prompt pid stock df recommended reorder) ]
    with
    | Raise e => (Raise e, w')
    | Ok text =>
        (Ok (mkInventoryRecommendation pid stock recommended reorder pd
               (if Qeq_bool pd 0 then Py.min 0.95 0.1
                else Py.min 0.95
                       (Py.max 0.1 ((1.0 - uncertainty / pd) * 0.8 + 0.2)))
               text (key_external_factors (external_signals df))), w')
    end.
Proof.
  cbv zeta. unfold generate_recommendation, bind, invoke, ret.
  destruct (llm _ _) as [text|e]; [|reflexivity].
  cbn [rng_tape rng_pos llm_calls].
  rewrite score_by_cases by apply Qabs_nonneg. reflexivity.
Qed.

(** Whenever a recommendation is returned, its confidence score lies in
    [[0.1, 0.95]]. *)
Lemma confidence_score_range (llm : LLM) (pid stock : json)
    (df : DemandForecast) (w w' : World) (r : InventoryRecommendation) :
  generate_recommendation llm pid stock df w = (Ok r, w') ->
  0.1 <= confidence_score r /\ confidence_score r <= 0.95.
Proof.
  rewrite generate_recommendation_run.
  destruct (llm _ _) as [text|e]; [|discriminate].
  intros H. injection H as <- _. cbn [confidence_score].
  destruct (Qeq_bool _ 0).
  - change (Py.min 0.95 0.1) with 0.1. split; lra.
  - match goal with |- context [Py.max 0.1 ?x] =>
      destruct (max_cases 0.1 x) as [[Hm Em]|[Hm Em]]; rewrite Em;
      match goal with |- context [Py.min 0.95 ?y] =>
        destruct (min_cases 0.95 y) as [[Hn En]|[Hn En]]; rewrite En
      end
    end; split; lra.
Qed.



(** C2, as stated, fails: with a predicted demand of 19 and the interval
    (15, 23) the code returns a reorder point of 14 and a recommended stock
    of 29, where rounding to the nearest integer gives 16 and 30. *)
Lemma rounding_counterexample :
  let df := Samples.forecast_of 19 15 23 in
  exists r w',
    generate_recommendation (Samples.llm_const "ok") (JStr "P1") (JInt 7) df
      (Samples.w0 Samples.flat_tape) = (Ok r, w')
    /\ reorder_point r = 14%Z /\ spec_reorder_point df = 16%Z
    /\ recommended_stock r = 29%Z /\ spec_recommended_stock df = 30%Z.
Proof.
  eexists _, _. split; [vm_compute; reflexivity|].
  repeat split; vm_compute; reflexivity.
Qed.

(** C2, amended.  When the model answers and the predicted demand is not
    0, [generate_recommendation] returns
    reorder_point = int(predicted_demand * 0.5 + safety_stock) with
    safety_stock = max(5, int(predicted_demand * 0.3)), and
    recommended_stock = int(predicted_demand * 1.5 + buffer_stock) with
    buffer_stock = int(forecast_uncertainty * 0.2), where [int] truncates
    toward zero ([int_toward_zero]). *)
Theorem stock_levels_truncate (llm : LLM) (pid stock : json)
    (df : DemandForecast) (w : World) :
  answers llm (llm_calls w) ->
  ~ predicted_demand df == 0 ->
  let pd := predicted_demand df in
  let safety_stock := Z.max 5 (Py.int (pd * 0.3)) in
  let lead_time_demand := pd * 0.5 in
  let forecast_uncertainty :=
    Qabs (snd (confidence_interval df) - fst (confidence_interval df)) in
  let buffer_stock := Py.int (forecast_uncertainty * 0.2) in
  exists r w',
    generate_recommendation llm pid stock df w = (Ok r, w')
    /\ reorder_point r = Py.int (lead_time_demand + inject_Z safety_stock)
    /\ recommended_stock r = Py.int (pd * 1.5 + inject_Z buffer_stock).
Proof.
  intros Hllm Hpd. cbv zeta.
  rewrite generate_recommendation_run.
  match goal with |- context [llm ?n ?m] => destruct (Hllm m) as [text ->] end.
  replace (Qeq_bool (predicted_demand df) 0) with false.
  - eexists _, _. split; [reflexivity|]. split; reflexivity.
  - symmetry. apply not_true_iff_false. intros E.
    apply Hpd. now apply Qeq_bool_iff.
Qed.

Lemma stock_levels_truncate_witness :
  answers (Samples.llm_const "ok") (llm_calls (Samples.w0 Samples.flat_tape))
  /\ ~ predicted_demand (Samples.forecast_of 19 15 23) == 0
  /\ exists r w',
    generate_recommendation (Samples.llm_const "ok") (JStr "P1") (JInt 7)
      (Samples.forecast_of 19 15 23) (Samples.w0 Samples.flat_tape) = (Ok r, w')
    /\ reorder_point r = 14%Z
    /\ recommended_stock r = 29%Z.
Proof.
  destruct (stock_levels_truncate (Samples.llm_const "ok") (JStr "P1") (JInt 7)
              (Samples.forecast_of 19 15 23) (Samples.w0 Samples.flat_tape))
    as (r & w' & Hrun & Hr & Hs).
  - intros messages. exists "ok". reflexivity.
  - vm_compute. discriminate.
  - split; [intros messages; exists "ok"; reflexivity|].
    split; [vm_compute; discriminate|].
    exists r, w'. split; [exact Hrun|]. rewrite Hr, Hs.
    split; vm_compute; reflexivity.
Defined.

(** C8.  The formulas do not keep the reorder point below the recommended
    stock: for a predicted demand of 1 with no uncertainty the reorder
    point is 5 and the recommended stock is 1. *)
Theorem reorder_point_may_exceed_recommended_stock :
  exists (df : DemandForecast) (r : InventoryRecommendation) (w' : World),
    0 < predicted_demand df
    /\ snd (confidence_interval df) - fst (confidence_interval df) == 0
    /\ generate_recommendation (Samples.llm_const "ok") (JStr "P1") (JInt 0) df
         (Samples.w0 Samples.flat_tape) = (Ok r, w')
    /\ reorder_point r = 5%Z
    /\ recommended_stock r = 1%Z
    /\ (recommended_stock r < reorder_point r)%Z.
Proof.
  exists (Samples.forecast_of 1 1 1). eexists _, _.
  split; [reflexivity|]. split; [reflexivity|].
  split; [vm_compute; reflexivity|].
  repeat split.
Qed.

End Optimizer.

(** ** The draws of a forecast *)

Section Draws.

Import ExternalDataCollector DemandForecastingEngine.

Lemma advance_advance (w : World) (a b : nat) :
  advance (advance w a) b = advance w (a + b).
Proof.
  unfold advance. cbn [rng_tape rng_pos llm_calls]. f_equal. lia.
Qed.

(** The loop of [generate_mock_sales_data]: two draws a day, one point a
    day, and no sale below 0. *)
Lemma sales_loop (product_id : json) (base_demand days : Z) (l : list Z)
    (w : World) :
  exists data,
    for_each l (fun i =>
      let day_of_week := (i mod 7)%Z in
      let weekly_multiplier := if is_weekend day_of_week then 1.2 else 0.9 in
      let* u := random.uniform (-0.3) 0.3 in
      let trend := 1 + (inject_Z i / inject_Z days) * u in
      let* noise := random.uniform 0.7 1.3 in
      let demand :=
        Py.int (inject_Z base_demand * weekly_multiplier * trend * noise) in
      ret (mkSalesPoint (days - i) product_id (Z.max 0 demand) day_of_week)) w
    = (Ok data, advance w (2 * length l))
    /\ length data = length l
    /\ Forall (fun p => (0 <= sales p)%Z) data.
Proof.
  revert w. induction l as [|i l IH]; intros w.
  - exists []. repeat split; [|constructor].
    destruct w; reflexivity.
  - cbn [for_each]. unfold bind at 1.
    unfold bind at 1. unfold random.uniform at 1. unfold bind at 1.
    unfold random.random at 1. cbn [ret].
    unfold bind at 1. unfold random.uniform at 1. unfold bind at 1.
    unfold random.random at 1. cbn [ret rng_tape rng_pos llm_calls].
    unfold bind at 1. cbv zeta in IH.
    match goal with |- context [for_each l ?body ?w1] =>
      destruct (IH w1) as (data & E & Hlen & Hnn)
    end.
    rewrite E. cbn [ret].
    eexists. split; [|split].
    + f_equal. unfold advance. cbn [rng_tape rng_pos llm_calls length].
      f_equal. lia.
    + cbn [length]. now rewrite Hlen.
    + constructor; [cbn [sales]; lia | exact Hnn].
Qed.

Lemma generate_mock_sales_data_run (product_id : json) (w : World) :
  exists data,
    generate_mock_sales_data product_id 30 w = (Ok data, advance w 61)
    /\ length data = 30%nat
    /\ Forall (fun p => (0 <= sales p)%Z) data.
Proof.
  unfold generate_mock_sales_data. unfold bind at 1.
  unfold random.randint, bind at 1. unfold random.random at 1. cbn [ret].
  match goal with |- context [for_each ?l ?body ?w1] =>
    destruct (sales_loop product_id
                (10 + Qfloor (rng_tape w (rng_pos w) * inject_Z (100 - 10 + 1)))
                30 l w1) as (data & E & Hlen & Hnn)
  end.
  exists data. split; [|split]; [|exact Hlen|exact Hnn].
  etransitivity; [exact E|]. reflexivity.
Qed.

End Draws.

(** ** Signs of the quantities of a forecast *)

Section Signs.

Lemma div_nonneg (a b : Q) : 0 <= a -> 0 <= b -> 0 <= a / b.
Proof.
  intros Ha Hb. unfold Qdiv.
  apply Qmult_le_0_compat; [exact Ha | now apply Qinv_le_0_compat].
Qed.

Lemma inject_Z_nonneg (z : Z) : (0 <= z)%Z -> 0 <= inject_Z z.
Proof.
  intros H. change 0 with (inject_Z 0). now rewrite <- Zle_Qle.
Qed.

Lemma fold_sum_nonneg (l : list Q) (acc : Q) :
  0 <= acc -> Forall (fun x => 0 <= x) l -> 0 <= fold_left Qplus l acc.
Proof.
  revert acc. induction l as [|x l IH]; intros acc Hacc Hl; cbn [fold_left].
  - exact Hacc.
  - inversion Hl as [|? ? Hx Hl']; subst. apply IH; [lra | exact Hl'].
Qed.

Lemma mean_nonneg (l : list Q) : Forall (fun x => 0 <= x) l -> 0 <= np.mean l.
Proof.
  intros Hl. unfold np.mean, Py.sum. apply div_nonneg.
  - apply fold_sum_nonneg; [lra | exact Hl].
  - apply inject_Z_nonneg. lia.
Qed.

Lemma sqrt_nonneg (x : Q) : 0 <= np.sqrt x.
Proof.
  unfold np.sqrt. destruct (Qle_bool x 0); [lra|].
  apply div_nonneg; apply inject_Z_nonneg; [apply Z.sqrt_nonneg | lia].
Qed.

(** [np.sqrt] is the square root to 52 binary digits: its square is at
    most the argument, and one unit in the last place more overshoots. *)
Lemma sqrt_accurate (x : Q) :
  0 < x ->
  let ulp := 1 / inject_Z (2 ^ 52) in
  np.sqrt x * np.sqrt x <= x /\ x < (np.sqrt x + ulp) * (np.sqrt x + ulp).
Proof.
  intros Hx. cbv zeta. unfold np.sqrt.
  destruct (Qle_bool x 0) eqn:E; [apply Qle_bool_iff in E; lra|]. clear E.
  assert (HK : inject_Z (4 ^ 52) == inject_Z (2 ^ 52) * inject_Z (2 ^ 52))
    by (rewrite <- inject_Z_mult; reflexivity).
  assert (Hk : 0 < inject_Z (2 ^ 52)) by reflexivity.
  set (k := inject_Z (2 ^ 52)) in *.
  set (n := Qfloor (x * inject_Z (4 ^ 52))).
  assert (Hn0 : (0 <= n)%Z).
  { change 0%Z with (Qfloor 0). apply Qfloor_resp_le. rewrite HK. nra. }
  pose proof (Z.sqrt_spec n Hn0) as [Hs1 Hs2]. cbv zeta in Hs1, Hs2.
  pose proof (Z.sqrt_nonneg n) as Hs0.
  pose proof (Qfloor_le (x * inject_Z (4 ^ 52))) as Hf1.
  pose proof (Qlt_floor (x * inject_Z (4 ^ 52))) as Hf2.
  fold n in Hf1, Hf2. rewrite HK in Hf1, Hf2.
  set (s := Z.sqrt n) in *.
  assert (Hq1 : inject_Z s * inject_Z s <= inject_Z n)
    by (rewrite <- inject_Z_mult, <- Zle_Qle; exact Hs1).
  assert (Hq2 : inject_Z (n + 1) <= (inject_Z s + 1) * (inject_Z s + 1)).
  { change 1 with (inject_Z 1).
    rewrite <- inject_Z_plus, <- inject_Z_mult, <- Zle_Qle. lia. }
  split.
  - setoid_replace (inject_Z s / k * (inject_Z s / k))
      with (inject_Z s * inject_Z s / (k * k)) using relation Qeq
      by (field; lra).
    apply Qle_shift_div_r; [nra | lra].
  - setoid_replace ((inject_Z s / k + 1 / k) * (inject_Z s / k + 1 / k))
      with ((inject_Z s + 1) * (inject_Z s + 1) / (k * k)) using relation Qeq
      by (field; lra).
    apply Qlt_shift_div_l; [nra | lra].
Qed.

Lemma std_nonneg (l : list Q) : 0 <= np.std l.
Proof. unfold np.std. apply sqrt_nonneg. Qed.

Lemma Forall_inject_nonneg (zs : list Z) :
  Forall (fun z => (0 <= z)%Z) zs -> Forall (fun x => 0 <= x) (map inject_Z zs).
Proof.
  intros H. apply Forall_map. eapply Forall_impl; [exact H|].
  intros z Hz. now apply inject_Z_nonneg.
Qed.

Lemma Forall_filter_bool {A} (P : A -> Prop) (f : A -> bool) (l : list A) :
  Forall P l -> Forall P (List.filter f l).
Proof.
  induction 1 as [|x l Hx Hl IH]; cbn [List.filter].
  - constructor.
  - destruct (f x); [constructor|]; assumption.
Qed.

Lemma weather_impact_bounds (condition : string) (temperature : Z) :
  0 <= ExternalDataCollector._calculate_weather_impact condition temperature
  /\ ExternalDataCollector._calculate_weather_impact condition temperature <= 1.
Proof.
  unfold ExternalDataCollector._calculate_weather_impact.
  rewrite impact_map_lookup.
  pose proof (weather_table_range condition) as [Hlo Hhi].
  match goal with |- context [Py.min ?a ?b] =>
    destruct (min_cases a b) as [[Hc E]|[Hc E]]; rewrite E; clear E
  end; destruct (_ || _); split; lra.
Qed.

End Signs.

(** ** [forecast_demand], run *)

Section ForecastRun.

Import ExternalDataCollector DemandForecastingEngine Forecast.

Lemma bind_ok {A B} (m : M A) (k : A -> M B) (w w' : World) (a : A) :
  m w = (Ok a, w') -> bind m k w = k a w'.
Proof. intros H. unfold bind. now rewrite H. Qed.

Lemma get_weather_data_run (w : World) :
  get_weather_data w
  = (Ok (let temperature :=
           (-10 + Qfloor (rng_tape w (rng_pos w) * inject_Z (35 - -10 + 1)))%Z in
         let condition :=
           nth (Z.to_nat (Qfloor (rng_tape w (1 + rng_pos w)
                                  * inject_Z (Z.of_nat (length weather_conditions)))))
             weather_conditions "" in
         mkWeatherData temperature condition (rng_tape w (2 + rng_pos w))
           (_calculate_weather_impact condition temperature)),
     advance w 3).
Proof. reflexivity. Qed.

Lemma get_social_trends_run (w : World) :
  get_social_trends w
  = (Ok [("sustainable_fashion", rng_tape w (rng_pos w) * 0.5);
         ("outdoor_activities", rng_tape w (1 + rng_pos w) * 0.3);
         ("work_from_home", rng_tape w (2 + rng_pos w) * 0.4);
         ("tech_accessories", rng_tape w (3 + rng_pos w) * 0.6);
         ("health_fitness", rng_tape w (4 + rng_pos w) * 0.3)],
     advance w 5).
Proof. reflexivity. Qed.

Lemma get_economic_indicators_run (w : World) :
  get_economic_indicators w
  = (Ok [("consumer_confidence", 0.3 + (0.9 - 0.3) * rng_tape w (rng_pos w));
         ("unemployment_rate", 0.03 + (0.10 - 0.03) * rng_tape w (1 + rng_pos w));
         ("inflation_rate", 0.01 + (0.05 - 0.01) * rng_tape w (2 + rng_pos w));
         ("retail_spending_index", 0.8 + (1.2 - 0.8) * rng_tape w (3 + rng_pos w))],
     advance w 4).
Proof. reflexivity. Qed.

(** The draws always succeed and take 73 numbers from the tape; no sale
    is negative, and on a valid tape no impact is. *)
Lemma gather_run (product_id : json) (w : World) :
  exists i,
    gather product_id w = (Ok i, advance w 73)
    /\ generate_mock_sales_data product_id 30 w
       = (Ok (historical_data i), advance w 61)
    /\ length (historical_data i) = 30%nat
    /\ Forall (fun p => (0 <= sales p)%Z) (historical_data i)
    /\ 0 <= weather_impact i
    /\ (valid_tape (rng_tape w) -> 0 <= social_impact i /\ 0 <= economic_impact i).
Proof.
  destruct (generate_mock_sales_data_run product_id w) as (data & E & Hlen & Hnn).
  unfold gather. rewrite (bind_ok (generate_mock_sales_data product_id 30) _ w _ _ E).
  rewrite (bind_ok get_weather_data _ _ _ _ (get_weather_data_run _)).
  rewrite (bind_ok get_social_trends _ _ _ _ (get_social_trends_run _)).
  rewrite (bind_ok get_economic_indicators _ _ _ _
             (get_economic_indicators_run _)).
  unfold ret. rewrite !advance_advance.
  cbn [advance rng_tape rng_pos llm_calls Nat.add].
  eexists. split; [reflexivity|].
  cbn [historical_data]. split; [exact E|].
  split; [exact Hlen|]. split; [exact Hnn|].
  split.
  - unfold weather_impact. cbn [weather_data impact_score].
    match goal with |- context [_calculate_weather_impact ?c ?t] =>
      pose proof (weather_impact_bounds c t) as [Hw _]
    end. lra.
  - intros Hv. unfold social_impact, economic_impact.
    cbn [social_trends economic_data map snd length dict_get String.eqb
         Ascii.eqb Bool.eqb].
    split.
    + apply Qmult_le_0_compat; [|lra].
      apply div_nonneg; [|apply inject_Z_nonneg; lia].
      apply fold_sum_nonneg; [lra|].
      repeat constructor;
        match goal with |- 0 <= rng_tape w ?n * _ =>
          pose proof (Hv n) as [? _]; lra
        end.
    + match goal with |- context [rng_tape w ?n] =>
        pose proof (Hv n) as [? _]
      end. lra.
Qed.

(** [forecast_demand] draws, asks the model, and returns the value
    computed from the draws. *)
Lemma forecast_demand_run (llm : LLM) (product_id forecast_days : json)
    (w : World) :
  forecast_demand llm product_id forecast_days w =
    (let* i := gather product_id in
     let* ai_response := invoke llm (messages product_id forecast_days i) in
     ret (value product_id forecast_days i)) w.
Proof.
  unfold forecast_demand, gather, bind.
  destruct (generate_mock_sales_data product_id 30 w) as [[hd|e] w1];
    [|reflexivity].
  destruct (get_weather_data w1) as [[wd|e] w2]; [|reflexivity].
  destruct (get_social_trends w2) as [[st|e] w3]; [|reflexivity].
  destruct (get_economic_indicators w3) as [[ec|e] w4]; [|reflexivity].
  reflexivity.
Qed.

(** When the model answers, [forecast_demand] returns the value computed
    from its draws. *)
Lemma forecast_demand_returns (llm : LLM) (product_id forecast_days : json)
    (w : World) (i : Inputs) :
  gather product_id w = (Ok i, advance w 73) ->
  answers llm (llm_calls w) ->
  forecast_demand llm product_id forecast_days w
  = (Ok (value product_id forecast_days i),
     mkWorld (rng_tape w) (73 + rng_pos w) (S (llm_calls w))).
Proof.
  intros Hg Hllm. rewrite forecast_demand_run.
  unfold bind at 1. rewrite Hg.
  unfold bind, invoke, ret. cbn [advance rng_tape rng_pos llm_calls].
  destruct (Hllm (messages product_id forecast_days i)) as [text ->].
  reflexivity.
Qed.

Lemma trend_of_slope_sign (slope : Q) :
  (trend_of_slope slope = "stable" <-> slope == 0)
  /\ (trend_of_slope slope = "increasing" <-> 0 < slope)
  /\ (trend_of_slope slope = "decreasing" <-> slope < 0).
Proof.
  unfold trend_of_slope.
  destruct (ltb_spec 0 slope) as [Hp|Hp];
    [|destruct (ltb_spec slope 0) as [Hn|Hn]];
    repeat split; intros H; try discriminate H; try reflexivity; try lra.
Qed.

End ForecastRun.

(** ** The forecast *)

Section ForecastClaims.

Import ExternalDataCollector DemandForecastingEngine Forecast.

Lemma llm_const_answers (reply : string) (n : nat) :
  answers (Samples.llm_const reply) n.
Proof. intros messages. exists reply. reflexivity. Qed.

Lemma flat_tape_valid : valid_tape Samples.flat_tape.
Proof.
  intros n. unfold Samples.flat_tape.
  repeat match goal with |- context [if ?c then _ else _] => destruct c end;
    split; reflexivity || discriminate.
Qed.

(** C3.  The forecast does not depend on what the model replies: two
    runs from the same world (the same draws), each with a model that
    answers, return the same [DemandForecast]. *)
Theorem forecast_ignores_model_reply (llm1 llm2 : LLM)
    (product_id forecast_days : json) (w : World) :
  answers llm1 (llm_calls w) ->
  answers llm2 (llm_calls w) ->
  exists f w',
    forecast_demand llm1 product_id forecast_days w = (Ok f, w')
    /\ forecast_demand llm2 product_id forecast_days w = (Ok f, w').
Proof.
  intros H1 H2.
  destruct (gather_run product_id w) as (i & Hg & _).
  eexists _, _. split.
  - exact (forecast_demand_returns llm1 _ _ _ i Hg H1).
  - exact (forecast_demand_returns llm2 _ _ _ i Hg H2).
Qed.

Lemma forecast_ignores_model_reply_witness :
  answers (Samples.llm_const "demand will rise") (llm_calls (Samples.w0 Samples.flat_tape))
  /\ answers (Samples.llm_const "demand will fall") (llm_calls (Samples.w0 Samples.flat_tape))
  /\ exists f w',
    forecast_demand (Samples.llm_const "demand will rise") (JStr "P1") (JInt 7)
      (Samples.w0 Samples.flat_tape) = (Ok f, w')
    /\ forecast_demand (Samples.llm_const "demand will fall") (JStr "P1") (JInt 7)
         (Samples.w0 Samples.flat_tape) = (Ok f, w').
Proof.
  split; [apply llm_const_answers|]. split; [apply llm_const_answers|].
  apply forecast_ignores_model_reply; apply llm_const_answers.
Defined.

(** C4.  On a valid tape and with a model that answers, the confidence
    interval of the forecast is
    (max(0, predicted_demand - 1.96 sigma), predicted_demand + 1.96 sigma)
    with sigma the population standard deviation of the 30 synthesized
    sales values; its lower end is at least 0 and at most its upper end. *)
Theorem confidence_interval_shape (llm : LLM) (product_id forecast_days : json)
    (w : World) :
  valid_tape (rng_tape w) ->
  answers llm (llm_calls w) ->
  exists f w' data w1,
    forecast_demand llm product_id forecast_days w = (Ok f, w')
    /\ generate_mock_sales_data product_id 30 w = (Ok data, w1)
    /\ length data = 30%nat
    /\ (let sigma := np.std (map inject_Z (map sales data)) in
        confidence_interval f
        = (Py.max 0 (predicted_demand f - 1.96 * sigma),
           predicted_demand f + 1.96 * sigma))
    /\ 0 <= fst (confidence_interval f)
    /\ fst (confidence_interval f) <= snd (confidence_interval f).
Proof.
  intros Hv Hllm.
  destruct (gather_run product_id w)
    as (i & Hg & Hgen & Hlen & Hnn & Hwi & Hse).
  destruct (Hse Hv) as [Hsi Hei].
  eexists _, _, _, _. split; [exact (forecast_demand_returns llm _ _ _ i Hg Hllm)|].
  split; [exact Hgen|]. split; [exact Hlen|].
  cbn [value confidence_interval predicted_demand fst snd].
  split; [reflexivity|].
  assert (Hs : 0 <= std_dev i) by apply std_nonneg.
  assert (Hb : 0 <= base_forecast i).
  { unfold base_forecast. apply mean_nonneg, Forall_inject_nonneg.
    apply Forall_drop. unfold sales_values. now apply Forall_map. }
  assert (Hp : 0 <= adjusted_forecast i).
  { unfold adjusted_forecast. apply Qmult_le_0_compat; [exact Hb | lra]. }
  destruct (max_cases 0 (adjusted_forecast i - 1.96 * std_dev i))
    as [[Hm E]|[Hm E]]; rewrite E; split; lra.
Qed.

Lemma confidence_interval_shape_witness :
  valid_tape (rng_tape (Samples.w0 Samples.flat_tape))
  /\ answers (Samples.llm_const "ok") (llm_calls (Samples.w0 Samples.flat_tape))
  /\ exists f w' data w1,
    forecast_demand (Samples.llm_const "ok") (JStr "P1") (JInt 7)
      (Samples.w0 Samples.flat_tape) = (Ok f, w')
    /\ generate_mock_sales_data (JStr "P1") 30 (Samples.w0 Samples.flat_tape)
       = (Ok data, w1)
    /\ length data = 30%nat
    /\ (let sigma := np.std (map inject_Z (map sales data)) in
        confidence_interval f
        = (Py.max 0 (predicted_demand f - 1.96 * sigma),
           predicted_demand f + 1.96 * sigma))
    /\ 0 <= fst (confidence_interval f)
    /\ fst (confidence_interval f) <= snd (confidence_interval f).
Proof.
  split; [exact flat_tape_valid|]. split; [apply llm_const_answers|].
  apply confidence_interval_shape;
    [exact flat_tape_valid | apply llm_const_answers].
Defined.

(** C6.  With a model that answers, the trend of the forecast is read off
    the sign of the least-squares slope fitted through the 30 synthesized
    sales values: "stable" exactly when the slope is 0, "increasing"
    exactly when it is positive, "decreasing" exactly when it is
    negative. *)
Theorem trend_direction_by_slope_sign (llm : LLM)
    (product_id forecast_days : json) (w : World) :
  answers llm (llm_calls w) ->
  exists f w' data w1,
    forecast_demand llm product_id forecast_days w = (Ok f, w')
    /\ generate_mock_sales_data product_id 30 w = (Ok data, w1)
    /\ length data = 30%nat
    /\ (let slope :=
          stats.linregress_slope (np.arange (length data))
            (map inject_Z (map sales data)) in
        (trend_direction f = "stable" <-> slope == 0)
        /\ (trend_direction f = "increasing" <-> 0 < slope)
        /\ (trend_direction f = "decreasing" <-> slope < 0)).
Proof.
  intros Hllm.
  destruct (gather_run product_id w) as (i & Hg & Hgen & Hlen & _).
  eexists _, _, _, _. split; [exact (forecast_demand_returns llm _ _ _ i Hg Hllm)|].
  split; [exact Hgen|]. split; [exact Hlen|].
  cbn [value trend_direction]. cbv zeta.
  pose proof (trend_of_slope_sign (slope i)) as H.
  unfold slope, sales_values in H |- *. rewrite length_map in H |- *. exact H.
Qed.

Lemma trend_direction_by_slope_sign_witness :
  answers (Samples.llm_const "ok") (llm_calls (Samples.w0 Samples.flat_tape))
  /\ exists f w' data w1,
    forecast_demand (Samples.llm_const "ok") (JStr "P1") (JInt 7)
      (Samples.w0 Samples.flat_tape) = (Ok f, w')
    /\ generate_mock_sales_data (JStr "P1") 30 (Samples.w0 Samples.flat_tape)
       = (Ok data, w1)
    /\ length data = 30%nat
    /\ (let slope :=
          stats.linregress_slope (np.arange (length data))
            (map inject_Z (map sales data)) in
        (trend_direction f = "stable" <-> slope == 0)
        /\ (trend_direction f = "increasing" <-> 0 < slope)
        /\ (trend_direction f = "decreasing" <-> slope < 0)).
Proof.
  split; [apply llm_const_answers|].
  apply trend_direction_by_slope_sign, llm_const_answers.
Defined.

(** C7, as stated, fails: on draws (all in the unit interval) that make
    every day sell 10 units the weekday mean is 10, not 0, and the
    seasonality factor is 1.0. *)
Lemma seasonality_one_counterexample :
  valid_tape Samples.flat_tape
  /\ exists f w' data w1,
    forecast_demand (Samples.llm_const "ok") (JStr "P1") (JInt 7)
      (Samples.w0 Samples.flat_tape) = (Ok f, w')
    /\ generate_mock_sales_data (JStr "P1") 30 (Samples.w0 Samples.flat_tape)
       = (Ok data, w1)
    /\ seasonality_factor f == 1.0
    /\ weekday_avg data == 10
    /\ ~ weekday_avg data == 0.
Proof.
  split; [exact flat_tape_valid|].
  eexists _, _, _, _.
  split; [vm_compute; reflexivity|].
  split; [vm_compute; reflexivity|].
  split; [vm_compute; reflexivity|].
  split; [vm_compute; reflexivity|].
  vm_compute. discriminate.
Qed.

(** C7, amended.  With a model that answers, the seasonality factor of
    the forecast is mean(weekend sales) / mean(weekday sales) when the
    weekday mean is positive and 1.0 when the weekday mean is 0; the
    weekday mean is never negative.  (A factor of 1.0 does not tell that
    the weekday mean is 0.) *)
Theorem seasonality_factor_by_weekday_mean (llm : LLM)
    (product_id forecast_days : json) (w : World) :
  answers llm (llm_calls w) ->
  exists f w' data w1,
    forecast_demand llm product_id forecast_days w = (Ok f, w')
    /\ generate_mock_sales_data product_id 30 w = (Ok data, w1)
    /\ 0 <= weekday_avg data
    /\ (0 < weekday_avg data ->
        seasonality_factor f = weekend_avg data / weekday_avg data)
    /\ (weekday_avg data == 0 -> seasonality_factor f = 1.0).
Proof.
  intros Hllm.
  destruct (gather_run product_id w) as (i & Hg & Hgen & Hlen & Hnn & _).
  eexists _, _, _, _. split; [exact (forecast_demand_returns llm _ _ _ i Hg Hllm)|].
  split; [exact Hgen|].
  cbn [value seasonality_factor]. unfold seasonality.
  split; [|split].
  - unfold weekday_avg. apply mean_nonneg.
    apply Forall_map, Forall_filter_bool.
    eapply Forall_impl; [exact Hnn|].
    intros p Hp. now apply inject_Z_nonneg.
  - intros Hpos. apply ltb_lt in Hpos. now rewrite Hpos.
  - intros Hz.
    replace (Py.ltb 0 (weekday_avg (historical_data i))) with false;
      [reflexivity|].
    symmetry. apply ltb_ge. lra.
Qed.

Lemma seasonality_factor_by_weekday_mean_witness :
  answers (Samples.llm_const "ok") (llm_calls (Samples.w0 Samples.flat_tape))
  /\ exists f w' data w1,
    forecast_demand (Samples.llm_const "ok") (JStr "P1") (JInt 7)
      (Samples.w0 Samples.flat_tape) = (Ok f, w')
    /\ generate_mock_sales_data (JStr "P1") 30 (Samples.w0 Samples.flat_tape)
       = (Ok data, w1)
    /\ 0 <= weekday_avg data
    /\ (0 < weekday_avg data ->
        seasonality_factor f = weekend_avg data / weekday_avg data)
    /\ (weekday_avg data == 0 -> seasonality_factor f = 1.0).
Proof.
  split; [apply llm_const_answers|].
  apply seasonality_factor_by_weekday_mean, llm_const_answers.
Defined.

(** C10.  [forecast_days] reaches the result only through
    [forecast_period_days]: two runs from the same world with different
    values of [forecast_days] (each with a model that answers, possibly
    differently since the prompts differ) return forecasts whose other
    fields are equal; the predicted demand is the mean of the last 7 of the
    30 synthesized values, scaled by the external signals, whatever
    [forecast_days] is. *)
Theorem forecast_days_only_sets_period (llm1 llm2 : LLM)
    (pid days1 days2 : json) (w : World) :
  answers llm1 (llm_calls w) ->
  answers llm2 (llm_calls w) ->
  exists f1 f2 w' data w1 wi si ei,
    forecast_demand llm1 pid days1 w = (Ok f1, w')
    /\ forecast_demand llm2 pid days2 w = (Ok f2, w')
    /\ forecast_period_days f1 = days1
    /\ forecast_period_days f2 = days2
    /\ product_id f1 = product_id f2
    /\ predicted_demand f1 = predicted_demand f2
    /\ confidence_interval f1 = confidence_interval f2
    /\ trend_direction f1 = trend_direction f2
    /\ seasonality_factor f1 = seasonality_factor f2
    /\ external_signals f1 = external_signals f2
    /\ generate_mock_sales_data pid 30 w = (Ok data, w1)
    /\ external_signals f1
       = [("weather_impact", wi); ("social_impact", si); ("economic_impact", ei)]
    /\ predicted_demand f1
       = np.mean (map inject_Z (skipn 23 (map sales data)))
         * (1 + wi + si + ei).
Proof.
  intros H1 H2.
  destruct (gather_run pid w) as (i & Hg & Hgen & Hlen & _).
  eexists _, _, _, _, _, _, _, _.
  split; [exact (forecast_demand_returns llm1 _ _ _ i Hg H1)|].
  split; [exact (forecast_demand_returns llm2 _ _ _ i Hg H2)|].
  cbn [value forecast_period_days product_id predicted_demand
       confidence_interval trend_direction seasonality_factor external_signals].
  do 8 (split; [reflexivity|]).
  split; [exact Hgen|]. split; [reflexivity|].
  unfold adjusted_forecast, base_forecast, sales_values.
  rewrite length_map, Hlen. reflexivity.
Qed.

Lemma forecast_days_only_sets_period_witness :
  answers (Samples.llm_const "a week") (llm_calls (Samples.w0 Samples.flat_tape))
  /\ answers (Samples.llm_const "a month") (llm_calls (Samples.w0 Samples.flat_tape))
  /\ exists f1 f2 w' data w1 wi si ei,
    forecast_demand (Samples.llm_const "a week") (JStr "P1") (JInt 7)
      (Samples.w0 Samples.flat_tape) = (Ok f1, w')
    /\ forecast_demand (Samples.llm_const "a month") (JStr "P1") (JInt 30)
         (Samples.w0 Samples.flat_tape) = (Ok f2, w')
    /\ forecast_period_days f1 = JInt 7
    /\ forecast_period_days f2 = JInt 30
    /\ product_id f1 = product_id f2
    /\ predicted_demand f1 = predicted_demand f2
    /\ confidence_interval f1 = confidence_interval f2
    /\ trend_direction f1 = trend_direction f2
    /\ seasonality_factor f1 = seasonality_factor f2
    /\ external_signals f1 = external_signals f2
    /\ generate_mock_sales_data (JStr "P1") 30 (Samples.w0 Samples.flat_tape)
       = (Ok data, w1)
    /\ external_signals f1
       = [("weather_impact", wi); ("social_impact", si); ("economic_impact", ei)]
    /\ predicted_demand f1
       = np.mean (map inject_Z (skipn 23 (map sales data)))
         * (1 + wi + si + ei).
Proof.
  split; [apply llm_const_answers|]. split; [apply llm_const_answers|].
  apply forecast_days_only_sets_period; apply llm_const_answers.
Defined.

End ForecastClaims.

(** ** Request validation *)

Section Requests.

Import App.

(** A forecast always moves the world: it takes its 73 draws whether or
    not the model answers. *)
Lemma forecast_demand_draws (llm : LLM) (product_id forecast_days : json)
    (w : World) :
  rng_pos (snd (DemandForecastingEngine.forecast_demand llm product_id
                  forecast_days w))
  = (73 + rng_pos w)%nat.
Proof.
  rewrite forecast_demand_run.
  destruct (gather_run product_id w) as (i & Hg & _).
  unfold bind at 1. rewrite Hg. unfold bind, invoke, ret.
  destruct (llm _ _); reflexivity.
Qed.

Lemma get_obj (m : gmap string json) (key : string) (dflt : json) (w : World) :
  get (JObj m) key dflt w = (Ok (default dflt (m !! key)), w).
Proof. reflexivity. Qed.

(** An entry without a product id leaves the loop as it found it. *)
Lemma recommend_each_skip (llm : LLM) (pre post : list json)
    (entry : gmap string json) (recommendations : list json) (w : World) :
  recommend_each llm (pre ++ JObj (delete "product_id" entry) :: post)
    recommendations w
  = recommend_each llm (pre ++ post) recommendations w.
Proof.
  revert recommendations w.
  induction pre as [|first pre IH]; intros recommendations w.
  - cbn [app recommend_each get]. rewrite lookup_delete_eq.
    reflexivity.
  - cbn [app recommend_each]. unfold bind.
    destruct (get first "product_id" JNull w) as [[pid|ex] w1]; [|reflexivity].
    destruct (get first "current_stock" (JInt 0) w1) as [[stock|ex] w2];
      [|reflexivity].
    destruct (truthy pid); [|apply IH].
    destruct (InventoryAgent.process_product llm pid stock w2)
      as [[r|ex] w3]; [apply IH | reflexivity].
Qed.

(** C9.  Whatever else the request body holds:
    - [POST /forecast] without a product id answers 400 with the message
      "product_id is required" and leaves the world untouched, which no
      call of the forecasting engine does;
    - [POST /inventory/recommendations] without a products list, or with
      an empty one, answers 400;
    - an entry of a products list that has no product id is skipped: the
      response is the one computed from the other entries, and a list of
      one such entry answers 200 with no recommendation. *)
Theorem request_validation (llm : LLM) (m : gmap string json) (w : World) :
  generate_forecast llm (JObj (delete "product_id" m)) w
  = (Ok (mkResponse 400 (error_body "product_id is required")), w)
  /\ (forall product_id forecast_days,
        snd (DemandForecastingEngine.forecast_demand llm product_id
               forecast_days w) <> w)
  /\ get_inventory_recommendations llm (JObj (delete "products" m)) w
     = (Ok (mkResponse 400 (error_body "products list is required")), w)
  /\ get_inventory_recommendations llm (JObj (<["products" := JList []]> m)) w
     = (Ok (mkResponse 400 (error_body "products list is required")), w)
  /\ (forall pre post entry,
        get_inventory_recommendations llm
          (JObj (<["products" :=
                     JList (pre ++ JObj (delete "product_id" entry) :: post)]> m))
          w
        = try_except
            (let* recommendations := recommend_each llm (pre ++ post) [] in
             ret (jsonify (JObj {[ "recommendations" := JList recommendations ]})))
            (fun e => ret (mkResponse 500 (error_body (str_of_exn e)))) w)
  /\ (forall entry,
        get_inventory_recommendations llm
          (JObj (<["products" := JList [JObj (delete "product_id" entry)]]> m)) w
        = (Ok (mkResponse 200 (JObj {[ "recommendations" := JList [] ]})), w)).
Proof.
  assert (Hskip : forall pre post entry,
    get_inventory_recommendations llm
      (JObj (<["products" :=
                 JList (pre ++ JObj (delete "product_id" entry) :: post)]> m)) w
    = try_except
        (let* recommendations := recommend_each llm (pre ++ post) [] in
         ret (jsonify (JObj {[ "recommendations" := JList recommendations ]})))
        (fun e => ret (mkResponse 500 (error_body (str_of_exn e)))) w).
  { intros pre post entry.
    unfold get_inventory_recommendations.
    rewrite (bind_ok _ _ _ _ _ (get_obj _ _ _ _)), lookup_insert_eq.
    match goal with |- context [default ?d (Some ?x)] =>
      change (default d (Some x)) with x
    end.
    replace (truthy (JList (pre ++ JObj (delete "product_id" entry) :: post)))
      with true by (destruct pre; reflexivity).
    cbn [negb]. unfold try_except, iter.
    rewrite (bind_ok (ret _) _ w w _ eq_refl).
    unfold bind. rewrite recommend_each_skip. reflexivity. }
  split; [|split; [|split; [|split; [|split]]]].
  - unfold generate_forecast.
    rewrite !(bind_ok _ _ _ _ _ (get_obj _ _ _ _)), lookup_delete_eq.
    reflexivity.
  - intros product_id forecast_days Heq.
    pose proof (forecast_demand_draws llm product_id forecast_days w) as H.
    rewrite Heq in H. lia.
  - unfold get_inventory_recommendations.
    rewrite (bind_ok _ _ _ _ _ (get_obj _ _ _ _)), lookup_delete_eq.
    reflexivity.
  - unfold get_inventory_recommendations.
    rewrite (bind_ok _ _ _ _ _ (get_obj _ _ _ _)), lookup_insert_eq.
    reflexivity.
  - exact Hskip.
  - intros entry. exact (Hskip [] [] entry).
Qed.

End Requests.

(** * Further properties *)

(** ** The collectors *)

Section Collectors.

Import ExternalDataCollector.

Lemma floor_draw_range (u : Q) (n : Z) :
  (0 < n)%Z -> 0 <= u -> u < 1 ->
  (0 <= Qfloor (u * inject_Z n) < n)%Z.
Proof.
  intros Hn H0 H1.
  assert (Hq : 0 < inject_Z n)
    by (change 0 with (inject_Z 0); now rewrite <- Zlt_Qlt).
  split.
  - change 0%Z with (Qfloor 0). apply Qfloor_resp_le. nra.
  - rewrite Zlt_Qlt.
    apply Qle_lt_trans with (u * inject_Z n); [apply Qfloor_le | nra].
Qed.

Lemma weather_impact_uncapped (condition : string) (temperature : Z) :
  _calculate_weather_impact condition temperature
  == weather_table condition
     + (if (temperature <? 0)%Z || (30 <? temperature)%Z then 0.2 else 0)
  /\ _calculate_weather_impact condition temperature <= 0.6.
Proof.
  unfold _calculate_weather_impact. rewrite impact_map_lookup.
  pose proof (weather_table_range condition) as [Hlo Hhi].
  set (t := weather_table condition) in *.
  destruct ((temperature <? 0)%Z || (30 <? temperature)%Z);
    match goal with |- context [Py.min ?a ?b] =>
      destruct (min_cases a b) as [[Hc E]|[Hc E]]; rewrite E
    end; split; lra.
Qed.

(** The cap of [_calculate_weather_impact] never cuts: the impact is the
    table value plus the bonus for an extreme temperature; it is 0.6 at
    most, up to the rounding of that sum, hence below 0.61 and far from
    the cap of 1.0. *)
Theorem weather_impact_cap_is_idle (condition : string) (temperature : Z) :
  _calculate_weather_impact condition temperature
  == weather_table condition
     + (if (temperature <? 0)%Z || (30 <? temperature)%Z then 0.2 else 0)
  /\ _calculate_weather_impact condition temperature <= 0.61.
Proof.
  unfold _calculate_weather_impact. rewrite impact_map_lookup.
  pose proof (weather_table_range condition) as [Hlo Hhi].
  set (t := weather_table condition) in *.
  destruct ((temperature <? 0)%Z || (30 <? temperature)%Z);
    match goal with |- context [Py.min ?a ?b] =>
      destruct (min_cases a b) as [[Hc E]|[Hc E]]; rewrite E
    end; split; lra.
Qed.

(** On a valid tape [get_weather_data] takes three draws and returns a
    temperature of -10..35, one of the five conditions, a precipitation
    chance in [[0, 1)], and the impact of that condition and temperature,
    which is not negative and below 0.61. *)
Theorem weather_data_ranges (w : World) :
  valid_tape (rng_tape w) ->
  exists wd,
    get_weather_data w = (Ok wd, advance w 3)
    /\ (-10 <= temperature wd <= 35)%Z
    /\ In (condition wd) weather_conditions
    /\ 0 <= precipitation_chance wd /\ precipitation_chance wd < 1
    /\ impact_score wd = _calculate_weather_impact (condition wd) (temperature wd)
    /\ 0 <= impact_score wd /\ impact_score wd <= 0.61.
Proof.
  intros Hv. rewrite get_weather_data_run. eexists. split; [reflexivity|].
  cbv zeta. cbn [temperature condition precipitation_chance impact_score].
  pose proof (Hv (rng_pos w)) as [Ha0 Ha1].
  pose proof (Hv (1 + rng_pos w)%nat) as [Hb0 Hb1].
  pose proof (Hv (2 + rng_pos w)%nat) as [Hc0 Hc1].
  split.
  { pose proof (floor_draw_range _ (35 - -10 + 1) ltac:(lia) Ha0 Ha1). lia. }
  split.
  { pose proof (floor_draw_range _ (Z.of_nat (length weather_conditions))
                  ltac:(cbn; lia) Hb0 Hb1) as Hi.
    apply nth_In. cbn [length weather_conditions] in *. lia. }
  split; [exact Hc0|]. split; [exact Hc1|]. split; [reflexivity|].
  match goal with |- context [_calculate_weather_impact ?c ?t] =>
    pose proof (weather_impact_bounds c t) as [Hw _];
    pose proof (weather_impact_uncapped c t) as [_ Hw']
  end.
  split; lra.
Qed.

Lemma weather_data_ranges_witness :
  valid_tape (rng_tape (Samples.w0 Samples.flat_tape))
  /\ exists wd,
    get_weather_data (Samples.w0 Samples.flat_tape)
    = (Ok wd, advance (Samples.w0 Samples.flat_tape) 3)
    /\ (-10 <= temperature wd <= 35)%Z
    /\ In (condition wd) weather_conditions
    /\ 0 <= precipitation_chance wd /\ precipitation_chance wd < 1
    /\ impact_score wd = _calculate_weather_impact (condition wd) (temperature wd)
    /\ 0 <= impact_score wd /\ impact_score wd <= 0.61.
Proof.
  split; [exact flat_tape_valid|].
  apply weather_data_ranges. exact flat_tape_valid.
Defined.

(** On a valid tape [get_social_trends] takes five draws and returns the
    five named scores, each at least 0 and below its own ceiling. *)
Theorem social_trends_ranges (w : World) :
  valid_tape (rng_tape w) ->
  exists st,
    get_social_trends w = (Ok st, advance w 5)
    /\ map fst st = ["sustainable_fashion"; "outdoor_activities";
                     "work_from_home"; "tech_accessories"; "health_fitness"]
    /\ Forall2 (fun v ceiling => 0 <= v /\ v < ceiling)
         (map snd st) [0.5; 0.3; 0.4; 0.6; 0.3].
Proof.
  intros Hv. rewrite get_social_trends_run. eexists.
  split; [reflexivity|]. split; [reflexivity|].
  cbn [map snd].
  repeat (constructor;
          [match goal with |- 0 <= rng_tape w ?n * _ /\ _ =>
             pose proof (Hv n) as [? ?]; split; lra
           end|]).
  constructor.
Qed.

Lemma social_trends_ranges_witness :
  valid_tape (rng_tape (Samples.w0 Samples.flat_tape))
  /\ exists st,
    get_social_trends (Samples.w0 Samples.flat_tape)
    = (Ok st, advance (Samples.w0 Samples.flat_tape) 5)
    /\ map fst st = ["sustainable_fashion"; "outdoor_activities";
                     "work_from_home"; "tech_accessories"; "health_fitness"]
    /\ Forall2 (fun v ceiling => 0 <= v /\ v < ceiling)
         (map snd st) [0.5; 0.3; 0.4; 0.6; 0.3].
Proof.
  split; [exact flat_tape_valid|].
  apply social_trends_ranges. exact flat_tape_valid.
Defined.

(** On a valid tape [get_economic_indicators] takes four draws and
    returns the four named indicators, each within its own range, ends
    included (rounding can make a draw next to 1 reach the upper end). *)
Theorem economic_indicators_ranges (w : World) :
  valid_tape (rng_tape w) ->
  exists ec,
    get_economic_indicators w = (Ok ec, advance w 4)
    /\ map fst ec = ["consumer_confidence"; "unemployment_rate";
                     "inflation_rate"; "retail_spending_index"]
    /\ Forall2 (fun v range => fst range <= v /\ v <= snd range)
         (map snd ec) [(0.3, 0.9); (0.03, 0.10); (0.01, 0.05); (0.8, 1.2)].
Proof.
  intros Hv. rewrite get_economic_indicators_run. eexists.
  split; [reflexivity|]. split; [reflexivity|].
  cbn [map snd].
  repeat (constructor;
          [match goal with |- _ <= _ + _ * rng_tape w ?n /\ _ =>
             pose proof (Hv n) as [? ?]; cbn [fst snd]; split; lra
           end|]).
  constructor.
Qed.

Lemma economic_indicators_ranges_witness :
  valid_tape (rng_tape (Samples.w0 Samples.flat_tape))
  /\ exists ec,
    get_economic_indicators (Samples.w0 Samples.flat_tape)
    = (Ok ec, advance (Samples.w0 Samples.flat_tape) 4)
    /\ map fst ec = ["consumer_confidence"; "unemployment_rate";
                     "inflation_rate"; "retail_spending_index"]
    /\ Forall2 (fun v range => fst range <= v /\ v <= snd range)
         (map snd ec) [(0.3, 0.9); (0.03, 0.10); (0.01, 0.05); (0.8, 1.2)].
Proof.
  split; [exact flat_tape_valid|].
  apply economic_indicators_ranges. exact flat_tape_valid.
Defined.

End Collectors.

(** ** The synthesized sales *)

Section Sales.

Import DemandForecastingEngine.

Lemma int_floor (x : Q) : 0 <= x -> Py.int x = Qfloor x.
Proof.
  destruct x as [n d]. unfold Qle, Py.int, Qfloor. cbn [Qnum Qden].
  intros H. apply Z.quot_div_nonneg; lia.
Qed.

Lemma int_monotone (x y : Q) : 0 <= x -> x <= y -> (Py.int x <= Py.int y)%Z.
Proof.
  intros Hx Hxy. rewrite !int_floor by lra. now apply Qfloor_resp_le.
Qed.

Lemma int_bounds (x : Q) (lo hi : Z) :
  (0 <= lo)%Z -> inject_Z lo <= x -> x < inject_Z hi ->
  (lo <= Py.int x < hi)%Z.
Proof.
  intros Hlo H1 H2.
  assert (H0 : 0 <= x).
  { apply Qle_trans with (inject_Z lo); [|exact H1].
    change 0 with (inject_Z 0). now rewrite <- Zle_Qle. }
  rewrite int_floor by exact H0. split.
  - rewrite <- (Qfloor_Z lo). now apply Qfloor_resp_le.
  - rewrite Zlt_Qlt. apply Qle_lt_trans with x; [apply Qfloor_le | exact H2].
Qed.

Lemma ratio_unit (i days : Z) :
  (0 <= i < days)%Z ->
  0 <= inject_Z i / inject_Z days /\ inject_Z i / inject_Z days <= 1.
Proof.
  intros [Hi Hd].
  assert (Hq : 0 < inject_Z days)
    by (change 0 with (inject_Z 0); rewrite <- Zlt_Qlt; lia).
  assert (Hq0 : 0 <= inject_Z i)
    by (change 0 with (inject_Z 0); now rewrite <- Zle_Qle).
  assert (Hq1 : inject_Z i <= inject_Z days) by (rewrite <- Zle_Qle; lia).
  split.
  - apply Qle_shift_div_l; [exact Hq | lra].
  - apply Qle_shift_div_r; [exact Hq | lra].
Qed.

(** One day of demand on valid draws: between 4 and 202 units. *)
Lemma demand_bounds (base_demand i days : Z) (u1 u2 : Q) :
  (10 <= base_demand <= 100)%Z -> (0 <= i < days)%Z ->
  0 <= u1 -> u1 < 1 -> 0 <= u2 -> u2 < 1 ->
  (4 <= Z.max 0
          (Py.int (inject_Z base_demand
                   * (if is_weekend (i mod 7) then 1.2 else 0.9)
                   * (1 + inject_Z i / inject_Z days * (-0.3 + (0.3 - -0.3) * u1))
                   * (0.7 + (1.3 - 0.7) * u2)))
   <= 202)%Z.
Proof.
  intros [Hb1 Hb2] Hi Hu1 Hu1' Hu2 Hu2'.
  destruct (ratio_unit i days Hi) as [Hr0 Hr1].
  set (r := inject_Z i / inject_Z days) in *.
  assert (Hq1 : 10 <= inject_Z base_demand)
    by (change 10 with (inject_Z 10); now rewrite <- Zle_Qle).
  assert (Hq2 : inject_Z base_demand <= 100)
    by (change 100 with (inject_Z 100); now rewrite <- Zle_Qle).
  set (b := inject_Z base_demand) in *.
  set (m := if is_weekend (i mod 7) then 1.2 else 0.9).
  assert (Hm : 0.9 <= m /\ m <= 1.2) by (subst m; destruct (is_weekend _); lra).
  set (v := -0.3 + (0.3 - -0.3) * u1).
  assert (Hv : -0.3 <= v /\ v <= 0.3) by (subst v; lra).
  set (n := 0.7 + (1.3 - 0.7) * u2).
  assert (Hn : 0.7 <= n /\ n < 1.3) by (subst n; lra).
  assert (Hrv : -0.3 <= r * v /\ r * v <= 0.3) by nra.
  set (t := 1 + r * v) in *.
  assert (Ht : 0.7 <= t /\ t <= 1.3) by (subst t; lra).
  assert (Ha : 9 <= b * m /\ b * m <= 120) by nra.
  set (a := b * m) in *.
  assert (Hat : 6.3 <= a * t /\ a * t <= 156) by nra.
  set (c := a * t) in *.
  assert (Hx : 4.41 <= c * n /\ c * n < 202.8) by nra.
  pose proof (int_bounds (c * n) 4 203 ltac:(lia)
                ltac:(change (inject_Z 4) with 4; lra)
                ltac:(change (inject_Z 203) with 203; lra)).
  lia.
Qed.

Lemma range_in_range (days : Z) :
  Forall (fun i => (0 <= i < days)%Z) (range days).
Proof.
  unfold range.
  assert (H : forall n a, Forall (fun i => (Z.of_nat a <= i < Z.of_nat (a + n))%Z)
                            (map Z.of_nat (seq a n))).
  { induction n as [|n IH]; intros a; cbn [seq map]; constructor.
    - lia.
    - eapply Forall_impl; [apply (IH (S a))|]. cbn beta. intros i Hi. lia. }
  eapply Forall_impl; [apply (H (Z.to_nat days) 0%nat)|].
  cbn beta. intros i Hi. lia.
Qed.

(** The loop of [generate_mock_sales_data], point by point. *)
Lemma sales_loop_points (product_id : json) (base_demand days : Z) (l : list Z)
    (w : World) :
  exists data,
    for_each l (fun i =>
      let day_of_week := (i mod 7)%Z in
      let weekly_multiplier := if is_weekend day_of_week then 1.2 else 0.9 in
      let* u := random.uniform (-0.3) 0.3 in
      let trend := 1 + (inject_Z i / inject_Z days) * u in
      let* noise := random.uniform 0.7 1.3 in
      let demand :=
        Py.int (inject_Z base_demand * weekly_multiplier * trend * noise) in
      ret (mkSalesPoint (days - i) product_id (Z.max 0 demand) day_of_week)) w
    = (Ok data, advance w (2 * length l))
    /\ Forall2 (fun i p =>
                  day_of_week p = (i mod 7)%Z /\ date p = (days - i)%Z
                  /\ sp_product_id p = product_id /\ (0 <= sales p)%Z) l data
    /\ (valid_tape (rng_tape w) -> (10 <= base_demand <= 100)%Z ->
        Forall (fun i => (0 <= i < days)%Z) l ->
        Forall (fun p => (4 <= sales p <= 202)%Z) data).
Proof.
  revert w. induction l as [|i l IH]; intros w.
  - exists []. split; [destruct w; reflexivity|].
    split; [constructor|]. intros _ _ _. constructor.
  - cbn [for_each]. unfold bind at 1.
    unfold bind at 1. unfold random.uniform at 1. unfold bind at 1.
    unfold random.random at 1. cbn [ret].
    unfold bind at 1. unfold random.uniform at 1. unfold bind at 1.
    unfold random.random at 1. cbn [ret rng_tape rng_pos llm_calls].
    unfold bind at 1. cbv zeta in IH.
    match goal with |- context [for_each l ?body ?w1] =>
      destruct (IH w1) as (data & E & Hshape & Hbounds)
    end.
    rewrite E. cbn [ret]. cbn [rng_tape] in Hbounds.
    eexists. split; [|split].
    + f_equal. unfold advance. cbn [rng_tape rng_pos llm_calls length].
      f_equal. lia.
    + constructor; [|exact Hshape].
      cbn [day_of_week date sp_product_id sales]. repeat split; lia.
    + intros Hv Hb Hl. inversion Hl as [|? ? Hi Hl']; subst.
      constructor; [|now apply Hbounds].
      cbn [sales].
      pose proof (Hv (rng_pos w)) as [? ?].
      pose proof (Hv (S (rng_pos w))) as [? ?].
      now apply demand_bounds.
Qed.

Lemma generate_mock_sales_data_shape (product_id : json) (days : Z) (w : World) :
  exists data,
    generate_mock_sales_data product_id days w
    = (Ok data, advance w (1 + 2 * Z.to_nat days))
    /\ length data = Z.to_nat days
    /\ Forall2 (fun i p =>
                  day_of_week p = (i mod 7)%Z /\ date p = (days - i)%Z
                  /\ sp_product_id p = product_id /\ (0 <= sales p)%Z)
         (range days) data.
Proof.
  unfold generate_mock_sales_data. unfold bind at 1.
  unfold random.randint, bind at 1. unfold random.random at 1. cbn [ret].
  match goal with |- context [for_each ?l ?body ?w1] =>
    destruct (sales_loop_points product_id
                (10 + Qfloor (rng_tape w (rng_pos w) * inject_Z (100 - 10 + 1)))
                days l w1) as (data & E & Hshape & _)
  end.
  exists data. split; [|split].
  - etransitivity; [exact E|]. f_equal. unfold advance, range.
    cbn [rng_tape rng_pos llm_calls]. rewrite length_map, length_seq.
    f_equal. lia.
  - apply Forall2_length in Hshape. rewrite <- Hshape.
    unfold range. now rewrite length_map, length_seq.
  - exact Hshape.
Qed.

(** [generate_mock_sales_data] for any number of days: one draw for the
    base demand and two a day; one point a day, in order, carrying the
    day of the week (the index modulo 7), its age in days, the product id
    and a sale that is not negative.  For [days <= 0] the list is empty. *)
Theorem sales_data_shape (product_id : json) (days : Z) (w : World) :
  exists data,
    generate_mock_sales_data product_id days w
    = (Ok data, advance w (1 + 2 * Z.to_nat days))
    /\ length data = Z.to_nat days
    /\ Forall2 (fun i p =>
                  day_of_week p = (i mod 7)%Z /\ date p = (days - i)%Z
                  /\ sp_product_id p = product_id /\ (0 <= sales p)%Z)
         (range days) data.
Proof.
  unfold generate_mock_sales_data. unfold bind at 1.
  unfold random.randint, bind at 1. unfold random.random at 1. cbn [ret].
  match goal with |- context [for_each ?l ?body ?w1] =>
    destruct (sales_loop_points product_id
                (10 + Qfloor (rng_tape w (rng_pos w) * inject_Z (100 - 10 + 1)))
                days l w1) as (data & E & Hshape & _)
  end.
  exists data. split; [|split].
  - etransitivity; [exact E|]. f_equal. unfold advance, range.
    cbn [rng_tape rng_pos llm_calls]. rewrite length_map, length_seq.
    f_equal. lia.
  - apply Forall2_length in Hshape. rewrite <- Hshape.
    unfold range. now rewrite length_map, length_seq.
  - exact Hshape.
Qed.

Lemma generate_mock_sales_data_bounds (product_id : json) (days : Z) (w : World) :
  valid_tape (rng_tape w) ->
  exists data w',
    generate_mock_sales_data product_id days w = (Ok data, w')
    /\ Forall (fun p => (4 <= sales p <= 202)%Z) data.
Proof.
  intros Hv.
  unfold generate_mock_sales_data. unfold bind at 1.
  unfold random.randint, bind at 1. unfold random.random at 1. cbn [ret].
  match goal with |- context [for_each ?l ?body ?w1] =>
    destruct (sales_loop_points product_id
                (10 + Qfloor (rng_tape w (rng_pos w) * inject_Z (100 - 10 + 1)))
                days l w1) as (data & E & _ & Hbounds)
  end.
  exists data. eexists. split; [exact E|].
  cbn [rng_tape] in Hbounds. apply Hbounds; [exact Hv| |apply range_in_range].
  pose proof (Hv (rng_pos w)) as [H0 H1].
  pose proof (floor_draw_range _ (100 - 10 + 1) ltac:(lia) H0 H1). lia.
Qed.

(** On a valid tape every synthesized sale lies between 4 and 202 units:
    the clamp [max(0, demand)] never acts. *)
Theorem sales_bounds (product_id : json) (days : Z) (w : World) :
  valid_tape (rng_tape w) ->
  exists data w',
    generate_mock_sales_data product_id days w = (Ok data, w')
    /\ Forall (fun p => (4 <= sales p <= 202)%Z) data.
Proof.
  intros Hv.
  unfold generate_mock_sales_data. unfold bind at 1.
  unfold random.randint, bind at 1. unfold random.random at 1. cbn [ret].
  match goal with |- context [for_each ?l ?body ?w1] =>
    destruct (sales_loop_points product_id
                (10 + Qfloor (rng_tape w (rng_pos w) * inject_Z (100 - 10 + 1)))
                days l w1) as (data & E & _ & Hbounds)
  end.
  exists data. eexists. split; [exact E|].
  cbn [rng_tape] in Hbounds. apply Hbounds; [exact Hv| |apply range_in_range].
  pose proof (Hv (rng_pos w)) as [H0 H1].
  pose proof (floor_draw_range _ (100 - 10 + 1) ltac:(lia) H0 H1). lia.
Qed.

Lemma sales_bounds_witness :
  valid_tape (rng_tape (Samples.w0 Samples.flat_tape))
  /\ exists data w',
    generate_mock_sales_data (JStr "P1") 30 (Samples.w0 Samples.flat_tape)
    = (Ok data, w')
    /\ Forall (fun p => (4 <= sales p <= 202)%Z) data.
Proof.
  split; [exact flat_tape_valid|].
  apply sales_bounds. exact flat_tape_valid.
Defined.

End Sales.

(** ** The forecast on a valid tape *)

Section ValidForecast.

Import ExternalDataCollector DemandForecastingEngine Forecast.

Lemma fold_sum_between (lo hi : Q) (l : list Q) (acc : Q) :
  Forall (fun x => lo <= x /\ x <= hi) l ->
  acc + lo * inject_Z (Z.of_nat (length l)) <= fold_left Qplus l acc
  /\ fold_left Qplus l acc <= acc + hi * inject_Z (Z.of_nat (length l)).
Proof.
  revert acc. induction l as [|x l IH]; intros acc Hl; cbn [fold_left length].
  - change (inject_Z (Z.of_nat 0)) with 0. lra.
  - inversion Hl as [|? ? [Hx1 Hx2] Hl']; subst.
    destruct (IH (acc + x) Hl') as [H1 H2].
    rewrite Nat2Z.inj_succ. unfold Z.succ. rewrite inject_Z_plus.
    change (inject_Z 1) with 1. lra.
Qed.

Lemma mean_between (lo hi : Q) (l : list Q) :
  l <> [] -> Forall (fun x => lo <= x /\ x <= hi) l ->
  lo <= np.mean l /\ np.mean l <= hi.
Proof.
  intros Hne Hl. unfold np.mean, Py.sum.
  destruct (fold_sum_between lo hi l 0 Hl) as [H1 H2].
  assert (Hn : 0 < inject_Z (Z.of_nat (length l))).
  { change 0 with (inject_Z 0). rewrite <- Zlt_Qlt.
    destruct l; [contradiction | cbn [length]; lia]. }
  split.
  - apply Qle_shift_div_l; [exact Hn | lra].
  - apply Qle_shift_div_r; [exact Hn | lra].
Qed.

Lemma sales_between (data : list SalesPoint) (lo hi : Z) :
  Forall (fun p => (lo <= sales p <= hi)%Z) data ->
  Forall (fun x => inject_Z lo <= x /\ x <= inject_Z hi)
    (map (fun p => inject_Z (sales p)) data).
Proof.
  intros H. apply Forall_map. eapply Forall_impl; [exact H|].
  cbn beta. intros p [H1 H2]. rewrite <- !Zle_Qle. now split.
Qed.

Lemma shape_member (product_id : json) (days : Z) (l : list Z)
    (data : list SalesPoint) (i : Z) :
  Forall2 (fun i p =>
             day_of_week p = (i mod 7)%Z /\ date p = (days - i)%Z
             /\ sp_product_id p = product_id /\ (0 <= sales p)%Z) l data ->
  In i l -> exists p, In p data /\ day_of_week p = (i mod 7)%Z.
Proof.
  induction 1 as [|j p l data (Hd & _) _ IH]; intros Hin; [destruct Hin|].
  destruct Hin as [->|Hin].
  - exists p. split; [now left | exact Hd].
  - destruct (IH Hin) as (q & Hq & Hdq). exists q. split; [now right | exact Hdq].
Qed.

Lemma filter_member {A} (f : A -> bool) (l : list A) (x : A) :
  In x l -> f x = true -> List.filter f l <> [].
Proof.
  intros Hin Hf Hnil.
  assert (H : In x (List.filter f l)) by (apply filter_In; now split).
  rewrite Hnil in H. destruct H.
Qed.

(** The draws of a forecast on a valid tape: sales of 4 to 202 units on
    30 days laid out by day of the week, and impacts within their
    ranges. *)
Lemma gather_valid (product_id : json) (w : World) :
  valid_tape (rng_tape w) ->
  exists i,
    gather product_id w = (Ok i, advance w 73)
    /\ generate_mock_sales_data product_id 30 w
       = (Ok (historical_data i), advance w 61)
    /\ length (historical_data i) = 30%nat
    /\ Forall (fun p => (4 <= sales p <= 202)%Z) (historical_data i)
    /\ Forall2 (fun i p =>
                  day_of_week p = (i mod 7)%Z /\ date p = (30 - i)%Z
                  /\ sp_product_id p = product_id /\ (0 <= sales p)%Z)
         (range 30) (historical_data i)
    /\ (0 <= weather_impact i /\ weather_impact i <= 0.12)
    /\ (0 <= social_impact i /\ social_impact i <= 0.042)
    /\ (0.045 <= economic_impact i /\ economic_impact i <= 0.135).
Proof.
  intros Hv.
  destruct (generate_mock_sales_data_shape product_id 30 w)
    as (data & E & Hlen & Hshape).
  destruct (generate_mock_sales_data_bounds product_id 30 w Hv)
    as (data' & w' & E' & Hb).
  rewrite E in E'. injection E' as <- _.
  change (advance w (1 + 2 * Z.to_nat 30)) with (advance w 61) in E.
  unfold gather.
  rewrite (bind_ok (generate_mock_sales_data product_id 30) _ w _ _ E).
  rewrite (bind_ok get_weather_data _ _ _ _ (get_weather_data_run _)).
  rewrite (bind_ok get_social_trends _ _ _ _ (get_social_trends_run _)).
  rewrite (bind_ok get_economic_indicators _ _ _ _
             (get_economic_indicators_run _)).
  unfold ret. rewrite !advance_advance.
  cbn [advance rng_tape rng_pos llm_calls Nat.add].
  eexists. split; [reflexivity|].
  cbn [historical_data]. split; [exact E|].
  split; [exact Hlen|]. split; [exact Hb|]. split; [exact Hshape|].
  unfold weather_impact, social_impact, economic_impact, Py.sum.
  cbn [weather_data impact_score social_trends economic_data map snd length
       dict_get String.eqb Ascii.eqb Bool.eqb fold_left].
  split; [|split].
  - match goal with |- context [_calculate_weather_impact ?c ?t] =>
      pose proof (weather_impact_bounds c t) as [Hw _];
      pose proof (weather_impact_uncapped c t) as [_ Hw']
    end. split; lra.
  - unfold Qdiv. change (/ inject_Z (Z.of_nat 5)) with (1 # 5).
    repeat match goal with |- context [rng_tape w ?n] =>
      lazymatch goal with
      | H : 0 <= rng_tape w n |- _ => fail
      | _ => pose proof (Hv n) as [? ?]
      end
    end. split; lra.
  - match goal with |- context [rng_tape w ?n] =>
      pose proof (Hv n) as [? ?]
    end. split; lra.
Qed.

(** On a valid tape, and with a model that answers, the adjustments only
    raise the forecast: the predicted demand lies between 1.045 and 1.3
    times the mean of the last 7 days, which itself lies between 4 and
    202; in particular it is positive. *)
Theorem forecast_adjustment_bounds (llm : LLM) (product_id forecast_days : json)
    (w : World) :
  valid_tape (rng_tape w) ->
  answers llm (llm_calls w) ->
  exists f w' data w1,
    forecast_demand llm product_id forecast_days w = (Ok f, w')
    /\ generate_mock_sales_data product_id 30 w = (Ok data, w1)
    /\ (let base := np.mean (map inject_Z (skipn 23 (map sales data))) in
        4 <= base /\ base <= 202
        /\ base * 1.045 <= predicted_demand f
        /\ predicted_demand f <= base * 1.3).
Proof.
  intros Hv Hllm.
  destruct (gather_valid product_id w Hv)
    as (i & Hg & Hgen & Hlen & Hb & _ & Hwi & Hsi & Hei).
  eexists _, _, _, _.
  split; [exact (forecast_demand_returns llm _ _ _ i Hg Hllm)|].
  split; [exact Hgen|].
  cbn [value predicted_demand]. cbv zeta.
  unfold adjusted_forecast, base_forecast, sales_values.
  rewrite length_map, Hlen. change (30 - 7)%nat with 23%nat.
  set (base := np.mean _).
  assert (Hbase : 4 <= base /\ base <= 202).
  { subst base. rewrite <- skipn_map, map_map.
    apply (mean_between (inject_Z 4) (inject_Z 202)).
    - intros Hnil. apply (f_equal (@length Q)) in Hnil.
      rewrite length_skipn, length_map, Hlen in Hnil. discriminate Hnil.
    - apply Forall_drop. now apply sales_between. }
  destruct Hbase as [Hb1 Hb2]. repeat split; try assumption; nra.
Qed.

Lemma forecast_adjustment_bounds_witness :
  valid_tape (rng_tape (Samples.w0 Samples.flat_tape))
  /\ answers (Samples.llm_const "ok") (llm_calls (Samples.w0 Samples.flat_tape))
  /\ exists f w' data w1,
    forecast_demand (Samples.llm_const "ok") (JStr "P1") (JInt 7)
      (Samples.w0 Samples.flat_tape) = (Ok f, w')
    /\ generate_mock_sales_data (JStr "P1") 30 (Samples.w0 Samples.flat_tape)
       = (Ok data, w1)
    /\ (let base := np.mean (map inject_Z (skipn 23 (map sales data))) in
        4 <= base /\ base <= 202
        /\ base * 1.045 <= predicted_demand f
        /\ predicted_demand f <= base * 1.3).
Proof.
  split; [exact flat_tape_valid|]. split; [apply llm_const_answers|].
  apply forecast_adjustment_bounds;
    [exact flat_tape_valid | apply llm_const_answers].
Defined.

(** On a valid tape the weekday mean is positive, so the fallback of 1.0
    is never taken: the seasonality factor is the ratio of the weekend
    mean to the weekday mean, and it is positive. *)
Theorem seasonality_is_the_ratio (llm : LLM) (product_id forecast_days : json)
    (w : World) :
  valid_tape (rng_tape w) ->
  answers llm (llm_calls w) ->
  exists f w' data w1,
    forecast_demand llm product_id forecast_days w = (Ok f, w')
    /\ generate_mock_sales_data product_id 30 w = (Ok data, w1)
    /\ 4 <= weekday_avg data
    /\ 4 <= weekend_avg data
    /\ seasonality_factor f = weekend_avg data / weekday_avg data
    /\ 0 < seasonality_factor f.
Proof.
  intros Hv Hllm.
  destruct (gather_valid product_id w Hv)
    as (i & Hg & Hgen & Hlen & Hb & Hshape & _).
  assert (Hday : forall (f : SalesPoint -> bool) (k : Z),
            In k (range 30) ->
            (forall p, day_of_week p = (k mod 7)%Z -> f p = true) ->
            4 <= np.mean (map (fun p => inject_Z (sales p))
                            (List.filter f (historical_data i)))).
  { intros f k Hk Hf.
    destruct (shape_member _ _ _ _ k Hshape Hk) as (p & Hp & Hd).
    apply (mean_between (inject_Z 4) (inject_Z 202)).
    - intros Hnil. apply map_eq_nil in Hnil.
      exact (filter_member f _ p Hp (Hf p Hd) Hnil).
    - apply sales_between. now apply Forall_filter_bool. }
  assert (Hwd : 4 <= weekday_avg (historical_data i)).
  { apply (Hday _ 0%Z); [now left|]. intros p ->. reflexivity. }
  assert (Hwe : 4 <= weekend_avg (historical_data i)).
  { apply (Hday _ 5%Z); [do 5 right; now left|]. intros p ->. reflexivity. }
  eexists _, _, _, _.
  split; [exact (forecast_demand_returns llm _ _ _ i Hg Hllm)|].
  split; [exact Hgen|]. split; [exact Hwd|]. split; [exact Hwe|].
  cbn [value seasonality_factor]. unfold seasonality.
  replace (Py.ltb 0 (weekday_avg (historical_data i))) with true
    by (symmetry; apply ltb_lt; lra).
  split; [reflexivity|].
  unfold Qdiv. apply Qmult_lt_0_compat; [lra|]. apply Qinv_lt_0_compat. lra.
Qed.

Lemma seasonality_is_the_ratio_witness :
  valid_tape (rng_tape (Samples.w0 Samples.flat_tape))
  /\ answers (Samples.llm_const "ok") (llm_calls (Samples.w0 Samples.flat_tape))
  /\ exists f w' data w1,
    forecast_demand (Samples.llm_const "ok") (JStr "P1") (JInt 7)
      (Samples.w0 Samples.flat_tape) = (Ok f, w')
    /\ generate_mock_sales_data (JStr "P1") 30 (Samples.w0 Samples.flat_tape)
       = (Ok data, w1)
    /\ 4 <= weekday_avg data
    /\ 4 <= weekend_avg data
    /\ seasonality_factor f = weekend_avg data / weekday_avg data
    /\ 0 < seasonality_factor f.
Proof.
  split; [exact flat_tape_valid|]. split; [apply llm_const_answers|].
  apply seasonality_is_the_ratio;
    [exact flat_tape_valid | apply llm_const_answers].
Defined.

End ValidForecast.

(** ** The optimizer, further *)

Section OptimizerMore.

Import InventoryOptimizer.

Lemma nonzero_test (x : Q) : ~ x == 0 -> Qeq_bool x 0 = false.
Proof.
  intros H. apply not_true_iff_false. intros E. apply H.
  now apply Qeq_bool_iff.
Qed.

(** The stock on hand plays no part in the numbers: two calls that differ
    in [current_stock] (and in what the model replies) return the same
    stock levels, demand, confidence and factors; each echoes its own
    [current_stock]. *)
Theorem current_stock_is_only_echoed (llm1 llm2 : LLM)
    (pid stock1 stock2 : json) (df : DemandForecast) (w : World) :
  answers llm1 (llm_calls w) ->
  answers llm2 (llm_calls w) ->
  ~ predicted_demand df == 0 ->
  exists r1 r2 w',
    generate_recommendation llm1 pid stock1 df w = (Ok r1, w')
    /\ generate_recommendation llm2 pid stock2 df w = (Ok r2, w')
    /\ current_stock r1 = stock1 /\ current_stock r2 = stock2
    /\ recommended_stock r1 = recommended_stock r2
    /\ reorder_point r1 = reorder_point r2
    /\ demand_forecast r1 = demand_forecast r2
    /\ confidence_score r1 = confidence_score r2
    /\ external_factors r1 = external_factors r2.
Proof.
  intros H1 H2 Hpd. rewrite !generate_recommendation_run.
  match goal with |- context [llm1 ?n ?m] => destruct (H1 m) as [t1 ->] end.
  match goal with |- context [llm2 ?n ?m] => destruct (H2 m) as [t2 ->] end.
  rewrite (nonzero_test _ Hpd).
  eexists _, _, _. split; [reflexivity|]. split; [reflexivity|].
  repeat split.
Qed.

Lemma current_stock_is_only_echoed_witness :
  answers (Samples.llm_const "low") (llm_calls (Samples.w0 Samples.flat_tape))
  /\ answers (Samples.llm_const "high") (llm_calls (Samples.w0 Samples.flat_tape))
  /\ ~ predicted_demand (Samples.forecast_of 19 15 23) == 0
  /\ exists r1 r2 w',
    generate_recommendation (Samples.llm_const "low") (JStr "P1") (JInt 0)
      (Samples.forecast_of 19 15 23) (Samples.w0 Samples.flat_tape) = (Ok r1, w')
    /\ generate_recommendation (Samples.llm_const "high") (JStr "P1") (JInt 500)
         (Samples.forecast_of 19 15 23) (Samples.w0 Samples.flat_tape) = (Ok r2, w')
    /\ current_stock r1 = JInt 0 /\ current_stock r2 = JInt 500
    /\ recommended_stock r1 = recommended_stock r2
    /\ reorder_point r1 = reorder_point r2
    /\ demand_forecast r1 = demand_forecast r2
    /\ confidence_score r1 = confidence_score r2
    /\ external_factors r1 = external_factors r2.
Proof.
  split; [apply llm_const_answers|]. split; [apply llm_const_answers|].
  split; [vm_compute; discriminate|].
  apply current_stock_is_only_echoed;
    [apply llm_const_answers | apply llm_const_answers | vm_compute; discriminate].
Defined.

(** The confidence score by the width of the interval, for a positive
    predicted demand: 0.95 while the width is at most 6.25% of the demand,
    0.1 once it reaches 112.5% of it, and 1 - 0.8 * width / demand in
    between. *)
Theorem confidence_score_by_width (llm : LLM) (pid stock : json)
    (df : DemandForecast) (w : World) :
  answers llm (llm_calls w) ->
  0 < predicted_demand df ->
  let pd := predicted_demand df in
  let width :=
    Qabs (snd (confidence_interval df) - fst (confidence_interval df)) in
  exists r w',
    generate_recommendation llm pid stock df w = (Ok r, w')
    /\ (width <= 0.0625 * pd -> confidence_score r == 0.95)
    /\ (1.125 * pd <= width -> confidence_score r == 0.1)
    /\ (0.0625 * pd <= width -> width <= 1.125 * pd ->
        confidence_score r == 1 - 0.8 * (width / pd)).
Proof.
  intros Hllm Hpd. cbv zeta. rewrite generate_recommendation_run.
  match goal with |- context [llm ?n ?m] => destruct (Hllm m) as [text ->] end.
  rewrite nonzero_test by lra.
  eexists _, _. split; [reflexivity|]. cbn [confidence_score].
  set (width := Qabs _). set (pd := predicted_demand df) in *.
  assert (Hq : width / pd * pd == width) by (field; lra).
  set (q := width / pd) in *.
  destruct (max_cases 0.1 ((1.0 - q) * 0.8 + 0.2)) as [[Hm Em]|[Hm Em]];
    rewrite Em;
    match goal with |- context [Py.min 0.95 ?y] =>
      destruct (min_cases 0.95 y) as [[Hn En]|[Hn En]]; rewrite En
    end; repeat split; intros; nra.
Qed.

Lemma confidence_score_by_width_witness :
  answers (Samples.llm_const "ok") (llm_calls (Samples.w0 Samples.flat_tape))
  /\ 0 < predicted_demand (Samples.forecast_of 19 15 23)
  /\ exists r w',
    generate_recommendation (Samples.llm_const "ok") (JStr "P1") (JInt 7)
      (Samples.forecast_of 19 15 23) (Samples.w0 Samples.flat_tape) = (Ok r, w')
    /\ confidence_score r == 1 - 0.8 * (8 / 19).
Proof.
  split; [apply llm_const_answers|]. split; [reflexivity|].
  destruct (confidence_score_by_width (Samples.llm_const "ok") (JStr "P1")
              (JInt 7) (Samples.forecast_of 19 15 23)
              (Samples.w0 Samples.flat_tape))
    as (r & w' & Hrun & _ & _ & Hmid).
  - apply llm_const_answers.
  - reflexivity.
  - exists r, w'. split; [exact Hrun|].
    rewrite Hmid; [reflexivity | vm_compute; discriminate
                  | vm_compute; discriminate].
Defined.

(** From a predicted demand of 5 on, the reorder point is at least 5 and
    never above the recommended stock. *)
Theorem reorder_point_within_recommended_stock (llm : LLM) (pid stock : json)
    (df : DemandForecast) (w : World) :
  answers llm (llm_calls w) ->
  5 <= predicted_demand df ->
  exists r w',
    generate_recommendation llm pid stock df w = (Ok r, w')
    /\ (5 <= reorder_point r)%Z
    /\ (reorder_point r <= recommended_stock r)%Z.
Proof.
  intros Hllm Hpd. rewrite generate_recommendation_run.
  match goal with |- context [llm ?n ?m] => destruct (Hllm m) as [text ->] end.
  rewrite nonzero_test by lra.
  eexists _, _. split; [reflexivity|].
  cbn [reorder_point recommended_stock].
  set (pd := predicted_demand df) in *.
  set (width := Qabs _).
  assert (Hw : 0 <= width) by apply Qabs_nonneg.
  assert (Hs : 5 <= inject_Z (Z.max 5 (Py.int (pd * 0.3)))
               /\ inject_Z (Z.max 5 (Py.int (pd * 0.3))) <= pd).
  { destruct (int_toward_zero (pd * 0.3)) as [Hi _].
    specialize (Hi ltac:(lra)) as [Hi _].
    destruct (Z.max_spec 5 (Py.int (pd * 0.3))) as [[Hlt ->]|[Hge ->]].
    - split; [|lra]. change 5 with (inject_Z 5). rewrite <- Zle_Qle. lia.
    - split; [change (inject_Z 5) with 5; lra | change (inject_Z 5) with 5; lra]. }
  set (s := inject_Z (Z.max 5 (Py.int (pd * 0.3)))) in *.
  assert (Hb : 0 <= inject_Z (Py.int (width * 0.2))).
  { change 0 with (inject_Z 0). rewrite <- Zle_Qle.
    rewrite int_floor by lra. change 0%Z with (Qfloor 0).
    apply Qfloor_resp_le. lra. }
  split.
  - assert (H5 : (Py.int 5 <= Py.int (pd * 0.5 + s))%Z)
      by (apply int_monotone; lra).
    exact H5.
  - apply int_monotone; lra.
Qed.

Lemma reorder_point_within_recommended_stock_witness :
  answers (Samples.llm_const "ok") (llm_calls (Samples.w0 Samples.flat_tape))
  /\ 5 <= predicted_demand (Samples.forecast_of 5 5 5)
  /\ exists r w',
    generate_recommendation (Samples.llm_const "ok") (JStr "P1") (JInt 7)
      (Samples.forecast_of 5 5 5) (Samples.w0 Samples.flat_tape) = (Ok r, w')
    /\ (5 <= reorder_point r)%Z
    /\ (reorder_point r <= recommended_stock r)%Z.
Proof.
  split; [apply llm_const_answers|]. split; [vm_compute; discriminate|].
  apply reorder_point_within_recommended_stock;
    [apply llm_const_answers | vm_compute; discriminate].
Defined.

(** The model is asked before the accuracy is computed: when its call
    fails, [generate_recommendation] raises the model's exception for
    every forecast, one with a predicted demand of 0 included, and the
    call is counted. *)
Theorem recommendation_fails_with_the_model (llm : LLM) (pid stock : json)
    (df : DemandForecast) (w : World) (e : exn) :
  (forall messages, llm (llm_calls w) messages = Raise e) ->
  generate_recommendation llm pid stock df w
  = (Raise e, mkWorld (rng_tape w) (rng_pos w) (S (llm_calls w))).
Proof.
  intros Hfail. rewrite generate_recommendation_run.
  now rewrite Hfail.
Qed.

Lemma recommendation_fails_with_the_model_witness :
  (forall messages,
     llm_failing (LLMError "quota") (llm_calls (Samples.w0 Samples.flat_tape))
       messages = Raise (LLMError "quota"))
  /\ generate_recommendation (llm_failing (LLMError "quota")) (JStr "P1") (JInt 7)
       (Samples.forecast_of 0 0 0) (Samples.w0 Samples.flat_tape)
     = (Raise (LLMError "quota"), mkWorld Samples.flat_tape 0 1).
Proof.
  split; [reflexivity|].
  apply (recommendation_fails_with_the_model (llm_failing (LLMError "quota"))
           (JStr "P1") (JInt 7) (Samples.forecast_of 0 0 0)
           (Samples.w0 Samples.flat_tape)).
  reflexivity.
Defined.

End OptimizerMore.

(** ** The agent *)

Section Agent.

Import ExternalDataCollector DemandForecastingEngine Forecast InventoryOptimizer.

Lemma recommendation_fails_with_the_model_at (llm : LLM) (pid stock : json)
    (df : DemandForecast) (w : World) (e : exn) :
  (forall messages, llm (llm_calls w) messages = Raise e) ->
  generate_recommendation llm pid stock df w
  = (Raise e, mkWorld (rng_tape w) (rng_pos w) (S (llm_calls w))).
Proof.
  intros Hfail. rewrite generate_recommendation_run. now rewrite Hfail.
Qed.

Lemma process_product_after_forecast (llm : LLM) (pid stock : json)
    (w : World) (i : Inputs) :
  gather pid w = (Ok i, advance w 73) ->
  answers llm (llm_calls w) ->
  InventoryAgent.process_product llm pid stock w
  = generate_recommendation llm pid stock (value pid (JInt 7) i)
      (mkWorld (rng_tape w) (73 + rng_pos w) (S (llm_calls w))).
Proof.
  intros Hg Hllm. unfold InventoryAgent.process_product.
  rewrite (bind_ok _ _ _ _ _ (forecast_demand_returns llm pid (JInt 7) w i Hg Hllm)).
  unfold bind, ret.
  destruct (generate_recommendation _ _ _ _ _) as [[r|e] w2]; reflexivity.
Qed.

Lemma base_forecast_bounds (i : Inputs) :
  length (historical_data i) = 30%nat ->
  Forall (fun p => (4 <= sales p <= 202)%Z) (historical_data i) ->
  4 <= base_forecast i /\ base_forecast i <= 202.
Proof.
  intros Hlen Hb. unfold base_forecast, sales_values.
  rewrite length_map, Hlen. change (30 - 7)%nat with 23%nat.
  rewrite <- skipn_map, map_map.
  apply (mean_between (inject_Z 4) (inject_Z 202)).
  - intros Hnil. apply (f_equal (@length Q)) in Hnil.
    rewrite length_skipn, length_map, Hlen in Hnil. discriminate Hnil.
  - apply Forall_drop. now apply sales_between.
Qed.

Lemma pipeline_factors (wi si ei : Q) :
  0 <= wi -> 0 <= si -> si <= 0.042 -> 0 <= ei ->
  Forall (fun s => s = "weather_impact (increasing demand)"
                   \/ s = "economic_impact (increasing demand)")
    (key_external_factors
       [("weather_impact", wi); ("social_impact", si); ("economic_impact", ei)]).
Proof.
  intros Hwi Hsi Hsi' Hei. cbn [key_external_factors].
  replace (Py.ltb 0.1 (Qabs si)) with false
    by (symmetry; apply ltb_ge; rewrite Qabs_pos by exact Hsi; lra).
  destruct (ltb_spec 0.1 (Qabs wi)) as [Hw|_];
    destruct (ltb_spec 0.1 (Qabs ei)) as [He|_];
    try (rewrite Qabs_pos in Hw by exact Hwi;
         replace (Py.ltb 0 wi) with true by (symmetry; apply ltb_lt; lra));
    try (rewrite Qabs_pos in He by exact Hei;
         replace (Py.ltb 0 ei) with true by (symmetry; apply ltb_lt; lra));
    repeat (constructor; [first [left; reflexivity | right; reflexivity]|]);
    constructor.
Qed.

(** A recommendation for a predicted demand of at least 4. *)
Lemma recommendation_of_positive_demand (llm : LLM) (pid stock : json)
    (df : DemandForecast) (w : World) :
  answers llm (llm_calls w) ->
  4 <= predicted_demand df ->
  exists r,
    generate_recommendation llm pid stock df w
    = (Ok r, mkWorld (rng_tape w) (rng_pos w) (S (llm_calls w)))
    /\ rec_product_id r = pid
    /\ current_stock r = stock
    /\ demand_forecast r = predicted_demand df
    /\ (0.1 <= confidence_score r /\ confidence_score r <= 0.95)
    /\ (5 <= reorder_point r)%Z
    /\ (6 <= recommended_stock r)%Z
    /\ external_factors r = key_external_factors (external_signals df).
Proof.
  intros Hllm Hpd.
  destruct (generate_recommendation llm pid stock df w) as [res w2] eqn:Erun.
  pose proof Erun as Erun'. rewrite generate_recommendation_run in Erun'.
  match type of Erun' with context [llm ?n ?m] =>
    destruct (Hllm m) as [text Ht]; rewrite Ht in Erun'
  end.
  rewrite nonzero_test in Erun' by lra.
  set (width := Qabs _) in Erun'.
  injection Erun' as <- <-.
  pose proof (confidence_score_range _ _ _ _ _ _ _ Erun) as Hc.
  eexists. split; [reflexivity|].
  cbn [rec_product_id current_stock demand_forecast reorder_point
       recommended_stock external_factors confidence_score] in Hc |- *.
  split; [reflexivity|]. split; [reflexivity|]. split; [reflexivity|].
  split; [exact Hc|]. clear Hc Erun.
  set (pd := predicted_demand df) in *.
  assert (Hwd : 0 <= width) by apply Qabs_nonneg.
  assert (Hbuf : 0 <= inject_Z (Py.int (width * 0.2))).
  { change 0 with (inject_Z 0). rewrite <- Zle_Qle.
    rewrite int_floor by lra. change 0%Z with (Qfloor 0).
    apply Qfloor_resp_le. lra. }
  assert (Hsafe : 5 <= inject_Z (Z.max 5 (Py.int (pd * 0.3)))).
  { change 5 with (inject_Z 5). rewrite <- Zle_Qle. lia. }
  split; [|split].
  - assert (H5 : (Py.int 5 <= Py.int (pd * 0.5
                                       + inject_Z (Z.max 5 (Py.int (pd * 0.3)))))%Z)
      by (apply int_monotone; lra).
    exact H5.
  - assert (H6 : (Py.int 6 <= Py.int (pd * 1.5
                                       + inject_Z (Py.int (width * 0.2))))%Z)
      by (apply int_monotone; lra).
    exact H6.
  - reflexivity.
Qed.

(** What [process_product] returns on a valid tape when the model answers
    both calls. *)
Lemma process_product_valid (llm : LLM) (pid stock : json) (w : World) :
  valid_tape (rng_tape w) ->
  answers llm (llm_calls w) ->
  answers llm (S (llm_calls w)) ->
  exists r,
    InventoryAgent.process_product llm pid stock w
    = (Ok r, mkWorld (rng_tape w) (73 + rng_pos w) (2 + llm_calls w))
    /\ rec_product_id r = pid
    /\ current_stock r = stock
    /\ (4 <= demand_forecast r /\ demand_forecast r <= 262)
    /\ (0.1 <= confidence_score r /\ confidence_score r <= 0.95)
    /\ (5 <= reorder_point r)%Z
    /\ (6 <= recommended_stock r)%Z
    /\ Forall (fun s => s = "weather_impact (increasing demand)"
                        \/ s = "economic_impact (increasing demand)")
         (external_factors r).
Proof.
  intros Hv H1 H2.
  destruct (gather_valid pid w Hv)
    as (i & Hg & _ & Hlen & Hb & _ & [Hw0 Hw1] & [Hs0 Hs1] & [He0 He1]).
  destruct (base_forecast_bounds i Hlen Hb) as [Hb0 Hb1].
  assert (Hpd : 4 <= adjusted_forecast i /\ adjusted_forecast i <= 262)
    by (unfold adjusted_forecast; split; nra).
  rewrite (process_product_after_forecast llm pid stock w i Hg H1).
  destruct (recommendation_of_positive_demand llm pid stock
              (value pid (JInt 7) i)
              (mkWorld (rng_tape w) (73 + rng_pos w) (S (llm_calls w)))
              H2 (proj1 Hpd))
    as (r & Hrun & Hid & Hst & Hdf & Hc & Hro & Hrs & Hef).
  exists r. split; [exact Hrun|].
  split; [exact Hid|]. split; [exact Hst|].
  split; [rewrite Hdf; exact Hpd|].
  split; [exact Hc|]. split; [exact Hro|]. split; [exact Hrs|].
  rewrite Hef. apply pipeline_factors; lra.
Qed.

(** On a valid tape and with a model that answers both calls,
    [process_product] always returns: the predicted demand is at least 4,
    so the quotient of the score is finite.  It takes 73 draws and two model
    calls, echoes the product id and the stock, and returns a demand of 4
    to 262, a confidence of 0.1 to 0.95, a reorder point of at least 5 and
    a recommended stock of at least 6. *)
Theorem process_product_returns (llm : LLM) (pid stock : json) (w : World) :
  valid_tape (rng_tape w) ->
  answers llm (llm_calls w) ->
  answers llm (S (llm_calls w)) ->
  exists r,
    InventoryAgent.process_product llm pid stock w
    = (Ok r, mkWorld (rng_tape w) (73 + rng_pos w) (2 + llm_calls w))
    /\ rec_product_id r = pid
    /\ current_stock r = stock
    /\ (4 <= demand_forecast r /\ demand_forecast r <= 262)
    /\ (0.1 <= confidence_score r /\ confidence_score r <= 0.95)
    /\ (5 <= reorder_point r)%Z
    /\ (6 <= recommended_stock r)%Z.
Proof.
  intros Hv H1 H2.
  destruct (process_product_valid llm pid stock w Hv H1 H2)
    as (r & Hrun & Hid & Hst & Hdf & Hc & Hro & Hrs & _).
  exists r. repeat split; tauto.
Qed.

Lemma process_product_returns_witness :
  valid_tape (rng_tape (Samples.w0 Samples.flat_tape))
  /\ answers (Samples.llm_const "ok") (llm_calls (Samples.w0 Samples.flat_tape))
  /\ answers (Samples.llm_const "ok")
       (S (llm_calls (Samples.w0 Samples.flat_tape)))
  /\ exists r,
    InventoryAgent.process_product (Samples.llm_const "ok") (JStr "P1") (JInt 45)
      (Samples.w0 Samples.flat_tape)
    = (Ok r, mkWorld Samples.flat_tape 73 2)
    /\ rec_product_id r = JStr "P1"
    /\ current_stock r = JInt 45
    /\ (4 <= demand_forecast r /\ demand_forecast r <= 262)
    /\ (0.1 <= confidence_score r /\ confidence_score r <= 0.95)
    /\ (5 <= reorder_point r)%Z
    /\ (6 <= recommended_stock r)%Z.
Proof.
  split; [exact flat_tape_valid|]. split; [apply llm_const_answers|].
  split; [apply llm_const_answers|].
  apply (process_product_returns (Samples.llm_const "ok") (JStr "P1") (JInt 45)
           (Samples.w0 Samples.flat_tape));
    [exact flat_tape_valid | apply llm_const_answers | apply llm_const_answers].
Defined.

(** On a valid tape the only factors [process_product] can name are the
    weather and the economy, both as increasing demand: the social impact
    stays below the threshold of 0.1 and no impact is negative. *)
Theorem pipeline_names_weather_and_economy_only (llm : LLM) (pid stock : json)
    (w : World) :
  valid_tape (rng_tape w) ->
  answers llm (llm_calls w) ->
  answers llm (S (llm_calls w)) ->
  exists r w',
    InventoryAgent.process_product llm pid stock w = (Ok r, w')
    /\ Forall (fun s => s = "weather_impact (increasing demand)"
                        \/ s = "economic_impact (increasing demand)")
         (external_factors r).
Proof.
  intros Hv H1 H2.
  destruct (process_product_valid llm pid stock w Hv H1 H2)
    as (r & Hrun & _ & _ & _ & _ & _ & _ & Hef).
  exists r. eexists. split; [exact Hrun | exact Hef].
Qed.

Lemma pipeline_names_weather_and_economy_only_witness :
  valid_tape (rng_tape (Samples.w0 Samples.flat_tape))
  /\ answers (Samples.llm_const "ok") (llm_calls (Samples.w0 Samples.flat_tape))
  /\ answers (Samples.llm_const "ok")
       (S (llm_calls (Samples.w0 Samples.flat_tape)))
  /\ exists r w',
    InventoryAgent.process_product (Samples.llm_const "ok") (JStr "P1") (JInt 45)
      (Samples.w0 Samples.flat_tape) = (Ok r, w')
    /\ Forall (fun s => s = "weather_impact (increasing demand)"
                        \/ s = "economic_impact (increasing demand)")
         (external_factors r).
Proof.
  split; [exact flat_tape_valid|]. split; [apply llm_const_answers|].
  split; [apply llm_const_answers|].
  apply (pipeline_names_weather_and_economy_only (Samples.llm_const "ok")
           (JStr "P1") (JInt 45) (Samples.w0 Samples.flat_tape));
    [exact flat_tape_valid | apply llm_const_answers | apply llm_const_answers].
Defined.

Lemma forecast_demand_fails (llm : LLM) (pid days : json) (w : World) (e : exn) :
  (forall messages, llm (llm_calls w) messages = Raise e) ->
  forecast_demand llm pid days w
  = (Raise e, mkWorld (rng_tape w) (73 + rng_pos w) (S (llm_calls w))).
Proof.
  intros Hfail. rewrite forecast_demand_run.
  destruct (gather_run pid w) as (i & Hg & _).
  unfold bind at 1. rewrite Hg.
  unfold bind, invoke. cbn [advance rng_tape rng_pos llm_calls].
  now rewrite Hfail.
Qed.

Lemma forecast_fails_at (llm : LLM) (pid stock : json) (w : World) (e : exn) :
  (forall messages, llm (llm_calls w) messages = Raise e) ->
  InventoryAgent.process_product llm pid stock w
  = (Raise e, mkWorld (rng_tape w) (73 + rng_pos w) (S (llm_calls w))).
Proof.
  intros Hfail.
  unfold InventoryAgent.process_product. unfold bind at 1.
  now rewrite (forecast_demand_fails llm pid (JInt 7) w e Hfail).
Qed.

(** When the model fails the call of the forecast, [forecast_demand]
    raises the model's exception, after its 73 draws; [process_product]
    raises it too and does not ask the model a second time. *)
Theorem forecast_fails_with_the_model (llm : LLM) (pid days stock : json)
    (w : World) (e : exn) :
  (forall messages, llm (llm_calls w) messages = Raise e) ->
  forecast_demand llm pid days w
  = (Raise e, mkWorld (rng_tape w) (73 + rng_pos w) (S (llm_calls w)))
  /\ InventoryAgent.process_product llm pid stock w
     = (Raise e, mkWorld (rng_tape w) (73 + rng_pos w) (S (llm_calls w))).
Proof.
  intros Hfail. split; [now apply forecast_demand_fails|].
  unfold InventoryAgent.process_product. unfold bind at 1.
  now rewrite (forecast_demand_fails llm pid (JInt 7) w e Hfail).
Qed.

Lemma forecast_fails_with_the_model_witness :
  (forall messages,
     llm_failing (LLMError "quota") (llm_calls (Samples.w0 Samples.flat_tape))
       messages = Raise (LLMError "quota"))
  /\ forecast_demand (llm_failing (LLMError "quota")) (JStr "P1") (JInt 7)
       (Samples.w0 Samples.flat_tape)
     = (Raise (LLMError "quota"), mkWorld Samples.flat_tape 73 1)
  /\ InventoryAgent.process_product (llm_failing (LLMError "quota")) (JStr "P1")
       (JInt 45) (Samples.w0 Samples.flat_tape)
     = (Raise (LLMError "quota"), mkWorld Samples.flat_tape 73 1).
Proof.
  split; [reflexivity|].
  apply (forecast_fails_with_the_model (llm_failing (LLMError "quota"))
           (JStr "P1") (JInt 7) (JInt 45) (Samples.w0 Samples.flat_tape)).
  reflexivity.
Defined.

(** When the model answers the forecast but fails the reasoning,
    [process_product] raises the model's exception: the forecast and the
    stock levels already computed are lost. *)
Theorem reasoning_failure_loses_the_forecast (llm : LLM) (pid stock : json)
    (w : World) (e : exn) :
  answers llm (llm_calls w) ->
  (forall messages, llm (S (llm_calls w)) messages = Raise e) ->
  InventoryAgent.process_product llm pid stock w
  = (Raise e, mkWorld (rng_tape w) (73 + rng_pos w) (2 + llm_calls w)).
Proof.
  intros H1 Hfail.
  destruct (gather_run pid w) as (i & Hg & _).
  rewrite (process_product_after_forecast llm pid stock w i Hg H1).
  apply recommendation_fails_with_the_model_at. exact Hfail.
Qed.

Lemma reasoning_failure_loses_the_forecast_witness :
  answers (llm_failing_from 1 "ok" (LLMError "quota"))
    (llm_calls (Samples.w0 Samples.flat_tape))
  /\ (forall messages,
        llm_failing_from 1 "ok" (LLMError "quota")
          (S (llm_calls (Samples.w0 Samples.flat_tape))) messages
        = Raise (LLMError "quota"))
  /\ InventoryAgent.process_product (llm_failing_from 1 "ok" (LLMError "quota"))
       (JStr "P1") (JInt 45) (Samples.w0 Samples.flat_tape)
     = (Raise (LLMError "quota"), mkWorld Samples.flat_tape 73 2).
Proof.
  split; [intros messages; exists "ok"; reflexivity|].
  split; [reflexivity|].
  apply (reasoning_failure_loses_the_forecast
           (llm_failing_from 1 "ok" (LLMError "quota")) (JStr "P1") (JInt 45)
           (Samples.w0 Samples.flat_tape)).
  - intros messages. exists "ok". reflexivity.
  - reflexivity.
Defined.

End Agent.

(** ** The endpoints, further *)

Section Endpoints.

Import App.

Lemma some_default (dflt v : json) : default dflt (Some v) = v.
Proof. reflexivity. Qed.

(** [POST /forecast] with an object as body always answers, with 200, 400
    or 500; it answers 400 exactly when the product id is missing or
    falsy (null, false, 0, an empty string, list or object), and then it
    leaves the world untouched. *)
Theorem forecast_endpoint_status (llm : LLM) (m : gmap string json) (w : World) :
  exists resp w',
    generate_forecast llm (JObj m) w = (Ok resp, w')
    /\ (status resp = 200%Z \/ status resp = 400%Z \/ status resp = 500%Z)
    /\ (status resp = 400%Z <-> truthy (default JNull (m !! "product_id")) = false)
    /\ (status resp = 400%Z ->
        w' = w /\ body resp = error_body "product_id is required").
Proof.
  unfold generate_forecast.
  rewrite !(bind_ok _ _ _ _ _ (get_obj _ _ _ _)).
  destruct (truthy (default JNull (m !! "product_id"))) eqn:Et; cbn [negb].
  - unfold try_except. unfold bind at 1.
    rewrite forecast_demand_run.
    destruct (gather_run (default JNull (m !! "product_id")) w) as (i & Hg & _).
    unfold bind at 1. rewrite Hg.
    unfold bind, invoke, ret.
    destruct (llm _ _) as [text|e]; eexists _, _;
      (split; [reflexivity|]); cbn [status];
      (split; [auto|]); (split; [split; discriminate | discriminate]).
  - eexists _, _. split; [reflexivity|]. cbn [status body].
    split; [auto|]. split; [tauto|]. intros _. split; reflexivity.
Qed.

(** [POST /forecast] with a product id and a model that answers: 200 with
    the forecast, which carries the product id and the [forecast_days] of
    the request, or 7 when the request names none. *)
Theorem forecast_endpoint_answers (llm : LLM) (m : gmap string json) (w : World) :
  truthy (default JNull (m !! "product_id")) = true ->
  answers llm (llm_calls w) ->
  exists f,
    generate_forecast llm (JObj m) w
    = (Ok (mkResponse 200 (asdict_forecast f)),
       mkWorld (rng_tape w) (73 + rng_pos w) (S (llm_calls w)))
    /\ product_id f = default JNull (m !! "product_id")
    /\ forecast_period_days f = default (JInt 7) (m !! "forecast_days").
Proof.
  intros Ht Hllm. unfold generate_forecast.
  rewrite !(bind_ok _ _ _ _ _ (get_obj _ _ _ _)). rewrite Ht. cbn [negb].
  destruct (gather_run (default JNull (m !! "product_id")) w) as (i & Hg & _).
  unfold try_except.
  rewrite (bind_ok _ _ _ _ _ (forecast_demand_returns llm _ _ w i Hg Hllm)).
  eexists. split; [reflexivity|]. split; reflexivity.
Qed.

Lemma forecast_endpoint_answers_witness :
  truthy (default JNull
            (({[ "product_id" := JStr "OLJCESPC7Z" ]} : gmap string json)
               !! "product_id")) = true
  /\ answers (Samples.llm_const "ok") (llm_calls (Samples.w0 Samples.flat_tape))
  /\ exists f,
    generate_forecast (Samples.llm_const "ok")
      (JObj {[ "product_id" := JStr "OLJCESPC7Z" ]}) (Samples.w0 Samples.flat_tape)
    = (Ok (mkResponse 200 (asdict_forecast f)), mkWorld Samples.flat_tape 73 1)
    /\ product_id f = JStr "OLJCESPC7Z"
    /\ forecast_period_days f = JInt 7.
Proof.
  split; [reflexivity|]. split; [apply llm_const_answers|].
  destruct (forecast_endpoint_answers (Samples.llm_const "ok")
              {[ "product_id" := JStr "OLJCESPC7Z" ]}
              (Samples.w0 Samples.flat_tape))
    as (f & Hrun & Hp & Hd); [reflexivity | apply llm_const_answers |].
  exists f. split; [exact Hrun|].
  split; [rewrite Hp | rewrite Hd]; reflexivity.
Defined.

(** [POST /forecast] with a product id and a model that fails: 500 with
    the text of the model's exception. *)
Theorem forecast_endpoint_model_failure (llm : LLM) (m : gmap string json)
    (w : World) (e : exn) :
  truthy (default JNull (m !! "product_id")) = true ->
  (forall messages, llm (llm_calls w) messages = Raise e) ->
  generate_forecast llm (JObj m) w
  = (Ok (mkResponse 500 (error_body (str_of_exn e))),
     mkWorld (rng_tape w) (73 + rng_pos w) (S (llm_calls w))).
Proof.
  intros Ht Hfail. unfold generate_forecast.
  rewrite !(bind_ok _ _ _ _ _ (get_obj _ _ _ _)). rewrite Ht. cbn [negb].
  unfold try_except. unfold bind at 1.
  now rewrite (forecast_demand_fails llm _ _ w e Hfail).
Qed.

Lemma forecast_endpoint_model_failure_witness :
  truthy (default JNull
            (({[ "product_id" := JStr "OLJCESPC7Z" ]} : gmap string json)
               !! "product_id")) = true
  /\ (forall messages,
        llm_failing (LLMError "quota") (llm_calls (Samples.w0 Samples.flat_tape))
          messages = Raise (LLMError "quota"))
  /\ generate_forecast (llm_failing (LLMError "quota"))
       (JObj {[ "product_id" := JStr "OLJCESPC7Z" ]}) (Samples.w0 Samples.flat_tape)
     = (Ok (mkResponse 500 (error_body "quota")), mkWorld Samples.flat_tape 73 1).
Proof.
  split; [reflexivity|]. split; [reflexivity|].
  apply (forecast_endpoint_model_failure (llm_failing (LLMError "quota"))
           {[ "product_id" := JStr "OLJCESPC7Z" ]} (Samples.w0 Samples.flat_tape)
           (LLMError "quota")); reflexivity.
Defined.

(** A request body that is not an object (null, a number, a string, a
    list) is not answered by either POST handler: [data.get] raises
    [AttributeError] outside the [try], and the world is untouched. *)
Theorem non_object_body_raises (llm : LLM) (data : json) (w : World) :
  (forall m, data <> JObj m) ->
  let e := AttributeError ("'" ++ type_name data ++ "' object has no attribute 'get'") in
  generate_forecast llm data w = (Raise e, w)
  /\ get_inventory_recommendations llm data w = (Raise e, w).
Proof.
  intros Hno. destruct data; try (split; reflexivity).
  exfalso. eapply Hno. reflexivity.
Qed.

Lemma non_object_body_raises_witness :
  (forall m, JList [JStr "OLJCESPC7Z"] <> JObj m)
  /\ generate_forecast (Samples.llm_const "ok") (JList [JStr "OLJCESPC7Z"])
       (Samples.w0 Samples.flat_tape)
     = (Raise (AttributeError "'list' object has no attribute 'get'"),
        Samples.w0 Samples.flat_tape)
  /\ get_inventory_recommendations (Samples.llm_const "ok")
       (JList [JStr "OLJCESPC7Z"]) (Samples.w0 Samples.flat_tape)
     = (Raise (AttributeError "'list' object has no attribute 'get'"),
        Samples.w0 Samples.flat_tape).
Proof.
  split; [intros m; discriminate|].
  apply (non_object_body_raises (Samples.llm_const "ok")
           (JList [JStr "OLJCESPC7Z"]) (Samples.w0 Samples.flat_tape)).
  intros m. discriminate.
Defined.

(** A truthy [products] that is not a list (true, a number, a string, an
    object) is answered with 500, never with a recommendation, and the
    world is untouched. *)
Theorem products_not_a_list (llm : LLM) (m : gmap string json) (v : json)
    (w : World) :
  truthy v = true ->
  (forall l, v <> JList l) ->
  exists msg,
    get_inventory_recommendations llm (JObj (<["products" := v]> m)) w
    = (Ok (mkResponse 500 (error_body msg)), w).
Proof.
  intros Ht Hnl. unfold get_inventory_recommendations.
  rewrite (bind_ok _ _ _ _ _ (get_obj _ _ _ _)), lookup_insert_eq, some_default.
  rewrite Ht. cbn [negb]. unfold try_except.
  destruct v as [|b|n|x|s|l|m0].
  - discriminate Ht.
  - eexists. reflexivity.
  - eexists. reflexivity.
  - eexists. reflexivity.
  - destruct s as [|c s]; [discriminate Ht|]. eexists. reflexivity.
  - exfalso. eapply Hnl. reflexivity.
  - unfold iter. rewrite (bind_ok (ret _) _ w w _ eq_refl).
    destruct (map_to_list m0) as [|[k x] rest] eqn:El.
    + apply map_to_list_empty_iff in El. subst m0. discriminate Ht.
    + eexists. reflexivity.
Qed.

Lemma products_not_a_list_witness :
  truthy (JStr "OLJCESPC7Z") = true
  /\ (forall l, JStr "OLJCESPC7Z" <> JList l)
  /\ exists msg,
    get_inventory_recommendations (Samples.llm_const "ok")
      (JObj (<["products" := JStr "OLJCESPC7Z"]> ∅)) (Samples.w0 Samples.flat_tape)
    = (Ok (mkResponse 500 (error_body msg)), Samples.w0 Samples.flat_tape).
Proof.
  split; [reflexivity|]. split; [intros l; discriminate|].
  apply (products_not_a_list (Samples.llm_const "ok") ∅ (JStr "OLJCESPC7Z")
           (Samples.w0 Samples.flat_tape)); [reflexivity | intros l; discriminate].
Defined.

End Endpoints.

(** ** Batches of products *)

Section Batches.

Import App.

Lemma recommend_each_run (llm : LLM) (entries : list (gmap string json)) :
  forall (recommendations : list json) (w : World),
    valid_tape (rng_tape w) ->
    (forall n, (llm_calls w <= n < llm_calls w
                                   + 2 * length (List.filter has_product_id entries))%nat ->
               answers llm n) ->
    exists recs,
      recommend_each llm (map JObj entries) recommendations w
      = (Ok (recommendations ++ recs)%list,
         mkWorld (rng_tape w)
           (73 * length (List.filter has_product_id entries) + rng_pos w)
           (2 * length (List.filter has_product_id entries) + llm_calls w))
      /\ Forall2 made_for recs (List.filter has_product_id entries).
Proof.
  induction entries as [|entry entries IH]; intros recommendations w Hv Hllm.
  - exists []. split; [|constructor].
    cbn [map recommend_each List.filter length]. rewrite app_nil_r.
    destruct w; reflexivity.
  - destruct (has_product_id entry) eqn:Ep.
    + assert (Hf : List.filter has_product_id (entry :: entries)
                   = entry :: List.filter has_product_id entries)
        by (cbn [List.filter]; now rewrite Ep).
      rewrite Hf in Hllm |- *. cbn [length] in Hllm |- *.
      cbn [map recommend_each].
      rewrite !(bind_ok _ _ _ _ _ (get_obj _ _ _ _)).
      change (truthy (default JNull (entry !! "product_id")))
        with (has_product_id entry).
      rewrite Ep.
      destruct (process_product_valid llm
                  (default JNull (entry !! "product_id"))
                  (default (JInt 0) (entry !! "current_stock")) w Hv)
        as (r & Hrun & Hid & Hst & _).
      { apply Hllm. lia. }
      { apply Hllm. lia. }
      rewrite (bind_ok _ _ _ _ _ Hrun).
      destruct (IH (recommendations ++ [asdict_recommendation r])%list
                  (mkWorld (rng_tape w) (73 + rng_pos w) (2 + llm_calls w)))
        as (recs & Hrec & Hmade).
      { exact Hv. }
      { intros n Hn. apply Hllm. cbn [llm_calls] in Hn. lia. }
      exists (asdict_recommendation r :: recs). split.
      * rewrite Hrec, <- app_assoc. cbn [app rng_tape rng_pos llm_calls].
        f_equal. f_equal; lia.
      * constructor; [|exact Hmade]. exists r. auto.
    + assert (Hf : List.filter has_product_id (entry :: entries)
                   = List.filter has_product_id entries)
        by (cbn [List.filter]; now rewrite Ep).
      rewrite Hf in Hllm |- *.
      cbn [map recommend_each].
      rewrite !(bind_ok _ _ _ _ _ (get_obj _ _ _ _)).
      change (truthy (default JNull (entry !! "product_id")))
        with (has_product_id entry).
      rewrite Ep. apply IH; assumption.
Qed.

Lemma recommend_each_app (llm : LLM) (first rest : list json) :
  forall (recommendations : list json) (w : World),
    recommend_each llm (first ++ rest)%list recommendations w
    = match recommend_each llm first recommendations w with
      | (Ok recommendations', w') => recommend_each llm rest recommendations' w'
      | (Raise e, w') => (Raise e, w')
      end.
Proof.
  induction first as [|x first IH]; intros recommendations w.
  - reflexivity.
  - cbn [app recommend_each]. unfold bind.
    destruct (get x "product_id" JNull w) as [[pid|ex] w1]; [|reflexivity].
    destruct (get x "current_stock" (JInt 0) w1) as [[stock|ex] w2];
      [|reflexivity].
    destruct (truthy pid); [|apply IH].
    destruct (InventoryAgent.process_product llm pid stock w2)
      as [[r|ex] w3]; [apply IH | reflexivity].
Qed.

(** A batch of objects, on a valid tape and with a model that answers:
    200 with one recommendation for each entry that has a product id, in
    the order of the request, each echoing the product id and the stock
    of its entry (0 when the entry names none).  Each recommendation costs
    73 draws and two model calls. *)
Theorem batch_recommendations (llm : LLM) (m : gmap string json)
    (entries : list (gmap string json)) (w : World) :
  entries <> [] ->
  valid_tape (rng_tape w) ->
  (forall n, answers llm n) ->
  let served := List.filter has_product_id entries in
  exists recs,
    get_inventory_recommendations llm
      (JObj (<["products" := JList (map JObj entries)]> m)) w
    = (Ok (mkResponse 200 (JObj {[ "recommendations" := JList recs ]})),
       mkWorld (rng_tape w) (73 * length served + rng_pos w)
         (2 * length served + llm_calls w))
    /\ Forall2 made_for recs served.
Proof.
  intros Hne Hv Hllm. cbv zeta.
  destruct (recommend_each_run llm entries [] w Hv (fun n _ => Hllm n))
    as (recs & Hrun & Hmade).
  exists recs. split; [|exact Hmade].
  unfold get_inventory_recommendations.
  rewrite (bind_ok _ _ _ _ _ (get_obj _ _ _ _)), lookup_insert_eq, some_default.
  replace (truthy (JList (map JObj entries))) with true
    by (destruct entries; [contradiction | reflexivity]).
  cbn [negb]. unfold try_except, iter.
  rewrite (bind_ok (ret _) _ w w _ eq_refl).
  rewrite (bind_ok _ _ _ _ _ Hrun). reflexivity.
Qed.

Lemma batch_recommendations_witness :
  [ ({[ "product_id" := JStr "OLJCESPC7Z" ]} : gmap string json); ∅ ] <> []
  /\ valid_tape (rng_tape (Samples.w0 Samples.flat_tape))
  /\ (forall n, answers (Samples.llm_const "ok") n)
  /\ exists recs,
    get_inventory_recommendations (Samples.llm_const "ok")
      (JObj (<["products" :=
                 JList (map JObj [ {[ "product_id" := JStr "OLJCESPC7Z" ]}; ∅ ])]> ∅))
      (Samples.w0 Samples.flat_tape)
    = (Ok (mkResponse 200 (JObj {[ "recommendations" := JList recs ]})),
       mkWorld Samples.flat_tape 73 2)
    /\ length recs = 1%nat.
Proof.
  split; [discriminate|]. split; [exact flat_tape_valid|].
  split; [intros n; apply llm_const_answers|].
  destruct (batch_recommendations (Samples.llm_const "ok") ∅
              [ {[ "product_id" := JStr "OLJCESPC7Z" ]}; ∅ ]
              (Samples.w0 Samples.flat_tape))
    as (recs & Hrun & Hmade);
    [discriminate | exact flat_tape_valid
    | intros n; apply llm_const_answers |].
  exists recs. split; [exact Hrun|].
  apply Forall2_length in Hmade. exact Hmade.
Defined.

(** One failure aborts the batch: when the entries before one are served
    and the model fails the forecast of that one, the answer is 500 with
    the text of the exception, and the recommendations already made are
    not returned. *)
Theorem batch_aborts_on_failure (llm : LLM) (m : gmap string json)
    (before : list (gmap string json)) (entry : gmap string json)
    (after : list json) (w : World) (e : exn) :
  valid_tape (rng_tape w) ->
  has_product_id entry = true ->
  let served := List.filter has_product_id before in
  (forall n, (llm_calls w <= n < llm_calls w + 2 * length served)%nat ->
             answers llm n) ->
  (forall messages,
     llm (2 * length served + llm_calls w)%nat messages = Raise e) ->
  get_inventory_recommendations llm
    (JObj (<["products" := JList (map JObj before ++ JObj entry :: after)]> m)) w
  = (Ok (mkResponse 500 (error_body (str_of_exn e))),
     mkWorld (rng_tape w) (73 + (73 * length served + rng_pos w))
       (S (2 * length served + llm_calls w))).
Proof.
  intros Hv Hp served Hllm Hfail. subst served.
  destruct (recommend_each_run llm before [] w Hv Hllm) as (recs & Hrun & _).
  unfold get_inventory_recommendations.
  rewrite (bind_ok _ _ _ _ _ (get_obj _ _ _ _)), lookup_insert_eq, some_default.
  replace (truthy (JList (map JObj before ++ JObj entry :: after))) with true
    by (destruct before; reflexivity).
  cbn [negb]. unfold try_except, iter.
  rewrite (bind_ok (ret _) _ w w _ eq_refl).
  unfold bind at 1. rewrite recommend_each_app, Hrun.
  cbn [recommend_each].
  rewrite !(bind_ok _ _ _ _ _ (get_obj _ _ _ _)).
  change (truthy (default JNull (entry !! "product_id")))
    with (has_product_id entry).
  rewrite Hp. unfold bind at 1.
  match goal with |- context [InventoryAgent.process_product llm ?p ?s ?w1] =>
    rewrite (forecast_fails_at llm p s w1 e Hfail)
  end.
  reflexivity.
Qed.

Lemma batch_aborts_on_failure_witness :
  valid_tape (rng_tape (Samples.w0 Samples.flat_tape))
  /\ get_inventory_recommendations (llm_failing_from 2 "ok" (LLMError "quota"))
       (JObj (<["products" :=
                  JList (map JObj [ {[ "product_id" := JStr "OLJCESPC7Z" ]} ]
                         ++ JObj {[ "product_id" := JStr "66VCHSJNUP" ]} :: [])]> ∅))
       (Samples.w0 Samples.flat_tape)
     = (Ok (mkResponse 500 (error_body "quota")), mkWorld Samples.flat_tape 146 3).
Proof.
  split; [exact flat_tape_valid|].
  pose proof (batch_aborts_on_failure
                (llm_failing_from 2 "ok" (LLMError "quota")) ∅
                [ {[ "product_id" := JStr "OLJCESPC7Z" ]} ]
                {[ "product_id" := JStr "66VCHSJNUP" ]} []
                (Samples.w0 Samples.flat_tape) (LLMError "quota")
                flat_tape_valid eq_refl) as H.
  cbv zeta in H. rewrite H.
  - reflexivity.
  - intros n Hn messages. exists "ok".
    change (length (List.filter _ _)) with 1%nat in Hn.
    unfold llm_failing_from.
    destruct n as [|[|n]]; [reflexivity | reflexivity | cbn in Hn; lia].
  - intros messages. reflexivity.
Defined.

End Batches.

(** ** The demo client *)

Section DemoClient.

Import DemandForecastingEngine Forecast.

(** What the demo prints under a recommendation: an increase is advised
    only for a stock strictly between the reorder point and the
    recommended stock, and then by at least one unit; so a recommendation
    whose recommended stock is at most one above its reorder point never
    gets that advice. *)
Lemma stock_advice_cases (current recommended reorder : Z) :
  match Demo.stock_action current recommended reorder with
  | Demo.ActionNeeded => (current <= reorder)%Z
  | Demo.ConsiderIncrease n =>
      (reorder < current < recommended)%Z
      /\ n = (recommended - current)%Z /\ (1 <= n)%Z
      /\ (reorder + 1 < recommended)%Z
  | Demo.StockOk => (reorder < current)%Z /\ (recommended <= current)%Z
  end.
Proof.
  unfold Demo.stock_action.
  destruct (Z.leb_spec current reorder); [assumption|].
  destruct (Z.ltb_spec current recommended); repeat split; lia.
Qed.

(** For a forecast made on a valid tape the demo never prints a falling
    arrow: every external signal is shown as rising or level, and the
    economic one always as rising. *)
Theorem demo_never_shows_falling_signal (llm : LLM)
    (product_id forecast_days : json) (w : World) :
  valid_tape (rng_tape w) ->
  answers llm (llm_calls w) ->
  exists f w',
    forecast_demand llm product_id forecast_days w = (Ok f, w')
    /\ Forall (fun signal =>
                 Demo.signal_direction (snd signal) = "up"
                 \/ Demo.signal_direction (snd signal) = "level")
         (external_signals f)
    /\ Demo.signal_direction (dict_get (external_signals f) "economic_impact" 0)
       = "up".
Proof.
  intros Hv Hllm.
  destruct (gather_valid product_id w Hv)
    as (i & Hg & _ & _ & _ & _ & [Hw0 _] & [Hs0 _] & [He0 _]).
  assert (Hdir : forall x, 0 <= x ->
            Demo.signal_direction x = "up" \/ Demo.signal_direction x = "level").
  { intros x Hx. unfold Demo.signal_direction.
    destruct (ltb_spec 0 x); [now left|].
    destruct (ltb_spec x 0); [lra | now right]. }
  eexists _, _.
  split; [exact (forecast_demand_returns llm _ _ _ i Hg Hllm)|].
  cbn [value external_signals]. split.
  - do 3 (constructor; [cbn [snd]; apply Hdir; lra|]). constructor.
  - cbn [dict_get String.eqb Ascii.eqb Bool.eqb].
    unfold Demo.signal_direction.
    replace (Py.ltb 0 (economic_impact i)) with true
      by (symmetry; apply ltb_lt; lra).
    reflexivity.
Qed.

Lemma demo_never_shows_falling_signal_witness :
  valid_tape (rng_tape (Samples.w0 Samples.flat_tape))
  /\ answers (Samples.llm_const "ok") (llm_calls (Samples.w0 Samples.flat_tape))
  /\ exists f w',
    forecast_demand (Samples.llm_const "ok") (JStr "P1") (JInt 7)
      (Samples.w0 Samples.flat_tape) = (Ok f, w')
    /\ Forall (fun signal =>
                 Demo.signal_direction (snd signal) = "up"
                 \/ Demo.signal_direction (snd signal) = "level")
         (external_signals f)
    /\ Demo.signal_direction (dict_get (external_signals f) "economic_impact" 0)
       = "up".
Proof.
  split; [exact flat_tape_valid|]. split; [apply llm_const_answers|].
  apply demo_never_shows_falling_signal;
    [exact flat_tape_valid | apply llm_const_answers].
Defined.

End DemoClient.
